(** * opencl_matrix_add.cpp: element-wise vector addition offloaded with OpenCL

    A shallow embedding of [src/opencl_matrix_add.cpp].  The host program is
    a straight line of calls into libc and the OpenCL runtime; what those
    calls answer (statuses, allocation results, the pseudo-random generator)
    is collected in an environment [Env], and the program is written in a
    small state-and-exit monad over the process state [State]. *)

From Stdlib Require Import ZArith Lia Ascii String.
From stdpp Require Import base list gmap strings pretty.

Open Scope Z_scope.

(** ** Machine integers *)

Module Int.
(** [int] is 32 bits wide and signed, [size_t] 64 bits wide and unsigned. *)
Definition wrap_int (z : Z) : Z := (z + 2 ^ 31) mod 2 ^ 32 - 2 ^ 31.
Definition wrap_size (z : Z) : Z := z mod 2 ^ 64.
Definition sizeof_int : Z := 4.

(** [n * sizeof(int)] with [n : int]: the operand is converted to [size_t]
    and the product taken modulo 2^64. *)
Definition size_bytes (n : Z) : Z := wrap_size (wrap_size n * sizeof_int).
End Int.
Export Int.

(** ** Constants of <CL/cl.h> and of the program *)

Definition CL_SUCCESS : Z := 0.
Definition CL_DEVICE_NOT_FOUND : Z := -1.
Definition CL_DEVICE_TYPE_CPU : Z := 2.
Definition CL_DEVICE_TYPE_GPU : Z := 4.

(** [#define PRINT 1] *)
Definition PRINT : Z := 1.

(** [int SZ = 100000000;] *)
Definition SZ_default : Z := 100000000.

Definition nl : string := String "010"%char EmptyString.

(** ** The environment of one run *)

(** Everything the program asks of the outside world.  The counters
    ([nat] arguments) number the calls of one kind in program order. *)
Record Env := {
  argv1 : option Z;                 (* [atoi(argv[1])] when [argc > 1] *)
  malloc_ok : nat -> bool;          (* does the k-th [malloc] succeed *)
  junk : nat -> Z;                  (* contents of memory nobody wrote *)
  rand_impl : Z -> Z * Z;           (* libc generator: state -> value, state *)
  st_GetPlatformIDs : Z;
  st_GetDeviceIDs : Z -> Z;         (* by device type *)
  st_CreateContext : Z;
  fopen_ok : bool;
  program_size : Z;                 (* length of the kernel source text *)
  log_size : Z;                     (* length of the build log *)
  st_CreateProgramWithSource : Z;
  st_BuildProgram : Z;
  st_CreateCommandQueue : Z;
  st_CreateKernel : Z;
  CreateBuffer_ok : nat -> bool;    (* is the k-th buffer handle non-null *)
  st_EnqueueWriteBuffer : nat -> Z; (* status of the k-th upload *)
  st_SetKernelArg : Z -> Z;         (* by argument index *)
  st_EnqueueNDRangeKernel : Z;
  st_WaitForEvents : Z;
  st_EnqueueReadBuffer : Z;
}.

(** The C standard fixes the behaviour of [rand] before any [srand]: the
    sequence is the one of [srand(1)]. *)
Definition rand_seed_default : Z := 1.

(** ** Process state *)

(** A host pointer variable: null, a live block of [int] cells, or the
    stale address of a block that was freed. *)
Inductive Ptr :=
| Null
| Block (cells : list Z)
| Dangling.

(** A device buffer: its size in bytes and its contents seen as [int]s. *)
Record Buffer := { buf_bytes : Z; buf_data : list Z }.

(** A value bound to a kernel parameter slot. *)
Inductive KArg :=
| KInt (z : Z)
| KMem (h : option nat).

(** What the process does that is visible from outside, in program order. *)
Inductive Event :=
| EvStdout (text : string)
| EvStderr (text : string)
| EvGetPlatformIDs
| EvGetDeviceIDs (device_type : Z)
| EvCreateContext
| EvFopen (path : string)
| EvCreateProgramWithSource
| EvBuildProgram
| EvGetProgramBuildInfo
| EvCreateCommandQueue
| EvCreateKernel (name : string)
| EvCreateBuffer (bytes : Z)
| EvEnqueueWriteBuffer (buf : option nat) (bytes : Z)
| EvSetKernelArg (index : Z)
| EvNow
| EvEnqueueNDRangeKernel (global : Z)
| EvWaitForEvents
| EvEnqueueReadBuffer (buf : option nat) (bytes : Z)
| EvReportTime
| EvReleaseMemObject (buf : option nat)
| EvReleaseKernel
| EvReleaseCommandQueue
| EvReleaseProgram
| EvReleaseContext.

Global Instance Event_eq_dec : EqDecision Event.
Proof. solve_decision. Defined.

(** The globals of the program, the device memory and the bookkeeping of
    the environment.  The handles [device_id], [context], [program],
    [kernel], [queue] and [event] are opaque to the host code, which only
    branches on the statuses that come with them; they are not stored. *)
Record State := {
  SZ : Z;
  v1 : Ptr;
  v2 : Ptr;
  v_out : Ptr;
  bufV1 : option nat;
  bufV2 : option nat;
  bufV_out : option nat;
  err : Z;
  buffers : gmap nat Buffer;      (* device memory, by handle *)
  kargs : gmap Z KArg;            (* bound kernel arguments *)
  rand_state : Z;
  mallocs : nat;                  (* [malloc] calls so far *)
  created : nat;                  (* [clCreateBuffer] calls so far *)
  uploads : nat;                  (* [clEnqueueWriteBuffer] calls so far *)
  trace : list Event;
}.

Definition initial_state : State :=
  {| SZ := SZ_default; v1 := Null; v2 := Null; v_out := Null;
     bufV1 := None; bufV2 := None; bufV_out := None; err := 0;
     buffers := ∅; kargs := ∅; rand_state := rand_seed_default;
     mallocs := 0%nat; created := 0%nat; uploads := 0%nat; trace := [] |}.

Definition set_SZ (x : Z) (s : State) : State :=
  {| SZ := x; v1 := v1 s; v2 := v2 s; v_out := v_out s;
     bufV1 := bufV1 s; bufV2 := bufV2 s; bufV_out := bufV_out s; err := err s;
     buffers := buffers s; kargs := kargs s; rand_state := rand_state s;
     mallocs := mallocs s; created := created s; uploads := uploads s;
     trace := trace s |}.

Definition set_v1 (x : Ptr) (s : State) : State :=
  {| SZ := SZ s; v1 := x; v2 := v2 s; v_out := v_out s;
     bufV1 := bufV1 s; bufV2 := bufV2 s; bufV_out := bufV_out s; err := err s;
     buffers := buffers s; kargs := kargs s; rand_state := rand_state s;
     mallocs := mallocs s; created := created s; uploads := uploads s;
     trace := trace s |}.

Definition set_v2 (x : Ptr) (s : State) : State :=
  {| SZ := SZ s; v1 := v1 s; v2 := x; v_out := v_out s;
     bufV1 := bufV1 s; bufV2 := bufV2 s; bufV_out := bufV_out s; err := err s;
     buffers := buffers s; kargs := kargs s; rand_state := rand_state s;
     mallocs := mallocs s; created := created s; uploads := uploads s;
     trace := trace s |}.

Definition set_v_out (x : Ptr) (s : State) : State :=
  {| SZ := SZ s; v1 := v1 s; v2 := v2 s; v_out := x;
     bufV1 := bufV1 s; bufV2 := bufV2 s; bufV_out := bufV_out s; err := err s;
     buffers := buffers s; kargs := kargs s; rand_state := rand_state s;
     mallocs := mallocs s; created := created s; uploads := uploads s;
     trace := trace s |}.

Definition set_bufV1 (x : option nat) (s : State) : State :=
  {| SZ := SZ s; v1 := v1 s; v2 := v2 s; v_out := v_out s;
     bufV1 := x; bufV2 := bufV2 s; bufV_out := bufV_out s; err := err s;
     buffers := buffers s; kargs := kargs s; rand_state := rand_state s;
     mallocs := mallocs s; created := created s; uploads := uploads s;
     trace := trace s |}.

Definition set_bufV2 (x : option nat) (s : State) : State :=
  {| SZ := SZ s; v1 := v1 s; v2 := v2 s; v_out := v_out s;
     bufV1 := bufV1 s; bufV2 := x; bufV_out := bufV_out s; err := err s;
     buffers := buffers s; kargs := kargs s; rand_state := rand_state s;
     mallocs := mallocs s; created := created s; uploads := uploads s;
     trace := trace s |}.

Definition set_bufV_out (x : option nat) (s : State) : State :=
  {| SZ := SZ s; v1 := v1 s; v2 := v2 s; v_out := v_out s;
     bufV1 := bufV1 s; bufV2 := bufV2 s; bufV_out := x; err := err s;
     buffers := buffers s; kargs := kargs s; rand_state := rand_state s;
     mallocs := mallocs s; created := created s; uploads := uploads s;
     trace := trace s |}.

Definition set_err (x : Z) (s : State) : State :=
  {| SZ := SZ s; v1 := v1 s; v2 := v2 s; v_out := v_out s;
     bufV1 := bufV1 s; bufV2 := bufV2 s; bufV_out := bufV_out s; err := x;
     buffers := buffers s; kargs := kargs s; rand_state := rand_state s;
     mallocs := mallocs s; created := created s; uploads := uploads s;
     trace := trace s |}.

Definition set_buffers (x : gmap nat Buffer) (s : State) : State :=
  {| SZ := SZ s; v1 := v1 s; v2 := v2 s; v_out := v_out s;
     bufV1 := bufV1 s; bufV2 := bufV2 s; bufV_out := bufV_out s; err := err s;
     buffers := x; kargs := kargs s; rand_state := rand_state s;
     mallocs := mallocs s; created := created s; uploads := uploads s;
     trace := trace s |}.

Definition set_kargs (x : gmap Z KArg) (s : State) : State :=
  {| SZ := SZ s; v1 := v1 s; v2 := v2 s; v_out := v_out s;
     bufV1 := bufV1 s; bufV2 := bufV2 s; bufV_out := bufV_out s; err := err s;
     buffers := buffers s; kargs := x; rand_state := rand_state s;
     mallocs := mallocs s; created := created s; uploads := uploads s;
     trace := trace s |}.

Definition set_rand_state (x : Z) (s : State) : State :=
  {| SZ := SZ s; v1 := v1 s; v2 := v2 s; v_out := v_out s;
     bufV1 := bufV1 s; bufV2 := bufV2 s; bufV_out := bufV_out s; err := err s;
     buffers := buffers s; kargs := kargs s; rand_state := x;
     mallocs := mallocs s; created := created s; uploads := uploads s;
     trace := trace s |}.

Definition set_mallocs (x : nat) (s : State) : State :=
  {| SZ := SZ s; v1 := v1 s; v2 := v2 s; v_out := v_out s;
     bufV1 := bufV1 s; bufV2 := bufV2 s; bufV_out := bufV_out s; err := err s;
     buffers := buffers s; kargs := kargs s; rand_state := rand_state s;
     mallocs := x; created := created s; uploads := uploads s;
     trace := trace s |}.

Definition set_created (x : nat) (s : State) : State :=
  {| SZ := SZ s; v1 := v1 s; v2 := v2 s; v_out := v_out s;
     bufV1 := bufV1 s; bufV2 := bufV2 s; bufV_out := bufV_out s; err := err s;
     buffers := buffers s; kargs := kargs s; rand_state := rand_state s;
     mallocs := mallocs s; created := x; uploads := uploads s;
     trace := trace s |}.

Definition set_uploads (x : nat) (s : State) : State :=
  {| SZ := SZ s; v1 := v1 s; v2 := v2 s; v_out := v_out s;
     bufV1 := bufV1 s; bufV2 := bufV2 s; bufV_out := bufV_out s; err := err s;
     buffers := buffers s; kargs := kargs s; rand_state := rand_state s;
     mallocs := mallocs s; created := created s; uploads := x;
     trace := trace s |}.

Definition set_trace (x : list Event) (s : State) : State :=
  {| SZ := SZ s; v1 := v1 s; v2 := v2 s; v_out := v_out s;
     bufV1 := bufV1 s; bufV2 := bufV2 s; bufV_out := bufV_out s; err := err s;
     buffers := buffers s; kargs := kargs s; rand_state := rand_state s;
     mallocs := mallocs s; created := created s; uploads := uploads s;
     trace := x |}.

(** The three host arrays and the three device buffers, as the variables
    they are in the source. *)
Inductive HostVar := V1 | V2 | V_out.
Inductive BufVar := BufV1 | BufV2 | BufV_out.

Definition host (A : HostVar) (s : State) : Ptr :=
  match A with V1 => v1 s | V2 => v2 s | V_out => v_out s end.

Definition set_host (A : HostVar) (p : Ptr) (s : State) : State :=
  match A with V1 => set_v1 p s | V2 => set_v2 p s | V_out => set_v_out p s end.

Definition bufvar (B : BufVar) (s : State) : option nat :=
  match B with BufV1 => bufV1 s | BufV2 => bufV2 s | BufV_out => bufV_out s end.

Definition set_bufvar (B : BufVar) (h : option nat) (s : State) : State :=
  match B with
  | BufV1 => set_bufV1 h s | BufV2 => set_bufV2 h s | BufV_out => set_bufV_out h s
  end.

(** ** The monad: state, [exit], and faults *)

(** A computation returns, leaves through [exit(code)], or performs an
    access C leaves undefined (a store or load through a null or stale
    pointer, or outside its block). *)
Inductive Outcome (A : Type) :=
| Ret (a : A) (s : State)
| Exit (code : Z) (s : State)
| Fault (s : State).
Arguments Ret {A} a s.
Arguments Exit {A} code s.
Arguments Fault {A} s.

Definition M (A : Type) : Type := State -> Outcome A.

Definition state_of {A} (o : Outcome A) : State :=
  match o with Ret _ s | Exit _ s | Fault s => s end.

Global Instance M_ret : MRet M := fun A a s => Ret a s.
Global Instance M_bind : MBind M := fun A B f m s =>
  match m s with
  | Ret a s' => f a s'
  | Exit c s' => Exit c s'
  | Fault s' => Fault s'
  end.

Definition modify (f : State -> State) : M unit := fun s => Ret tt (f s).
Definition exit {A} (code : Z) : M A := fun s => Exit code s.
Definition fault {A} : M A := fun s => Fault s.
Definition emit (e : Event) : M unit :=
  modify (fun s => set_trace (trace s ++ [e]) s).

(** [for (long i = lo; i < hi; i++) body(i)], for a body that assigns
    neither [i] nor [hi]: the body runs for [lo], [lo+1], ... and the
    number of rounds is [hi - lo] when that is positive, none otherwise. *)
Fixpoint for_loop (n : nat) (i : Z) (body : Z -> M unit) : M unit :=
  match n with
  | O => mret tt
  | S n' => body i ;; for_loop n' (i + 1) body
  end.

Definition for_range (lo hi : Z) (body : Z -> M unit) : M unit :=
  for_loop (Z.to_nat (hi - lo)) lo body.

Definition gets {A} (f : State -> A) : M A := fun s => Ret (f s) s.

Definition sequence_ (l : list (M unit)) : M unit :=
  foldr (fun m k => m ;; k) (mret tt) l.

(** ** The device kernel *)

(** Modelled from the spec: the kernel source [./vector_ops_ocl.cl] with its
    entry point [vector_add_ocl] is not among the sources; the spec gives
    its effect per work-item as [out[i] = v1[i] + v2[i]], an addition of
    [int]s.  A work-item whose index lies outside an input leaves the
    output as it is. *)
Definition vector_add_ocl (a b : list Z) (out : list Z) (gid : nat) : list Z :=
  match a !! gid, b !! gid with
  | Some x, Some y => <[gid := wrap_int (x + y)]> out
  | _, _ => out
  end.

(** One execution instance over the work-items [0 .. global-1] of a single
    dimension.  Each work-item writes its own cell only, so the order in
    which the device runs them does not show. *)
Definition nd_range (global : Z) (a b out : list Z) : list Z :=
  foldl (vector_add_ocl a b) out (seq 0 (Z.to_nat global)).

(** [n] cells of [src] copied over the start of [dst]. *)
Definition blit (n : nat) (src dst : list Z) : list Z :=
  take n src ++ drop n dst.

Definition with_data (b : Buffer) (d : list Z) : Buffer :=
  {| buf_bytes := buf_bytes b; buf_data := d |}.

Definition is_null (h : option nat) : bool :=
  match h with None => true | Some _ => false end.

Section Program.
Context (env : Env).

(** *** libc *)

Definition junk_block (n : Z) : list Z :=
  map (junk env) (seq 0 (Z.to_nat n)).

Definition malloc (bytes : Z) : M Ptr := fun s =>
  let s' := set_mallocs (S (mallocs s)) s in
  if malloc_ok env (mallocs s)
  then Ret (Block (junk_block (bytes / sizeof_int))) s'
  else Ret Null s'.

(** [free(p)] for the pointer held by [A]; [free(NULL)] does nothing. *)
Definition free (A : HostVar) : M unit := fun s =>
  match host A s with
  | Null => Ret tt s
  | Block _ => Ret tt (set_host A Dangling s)
  | Dangling => Fault s
  end.

Definition rand : M Z := fun s =>
  let (r, g) := rand_impl env (rand_state s) in Ret r (set_rand_state g s).

(** [A[i] = v] *)
Definition store (A : HostVar) (i v : Z) : M unit := fun s =>
  match host A s with
  | Block cells =>
      if (0 <=? i) && (i <? Z.of_nat (length cells))
      then Ret tt (set_host A (Block (<[Z.to_nat i := v]> cells)) s)
      else Fault s
  | _ => Fault s
  end.

(** [A[i]] *)
Definition load (A : HostVar) (i : Z) : M Z := fun s =>
  match host A s with
  | Block cells =>
      match (if 0 <=? i then cells !! Z.to_nat i else None) with
      | Some x => Ret x s
      | None => Fault s
      end
  | _ => Fault s
  end.

Definition printf (text : string) : M unit := emit (EvStdout text).
Definition perror (text : string) : M unit := emit (EvStderr text).

(** [printf("%d ", x)] *)
Definition printf_d (x : Z) : M unit := printf (pretty x +:+ " ").

Definition fopen (path : string) : M bool :=
  emit (EvFopen path) ;; mret (fopen_ok env).

(** [std::chrono::high_resolution_clock::now()] *)
Definition now : M unit := emit EvNow.

(** *** The OpenCL runtime

    Each call is logged and answers the status the environment holds for
    it.  A call that reports [CL_SUCCESS] has its documented effect on
    the device memory; a call that reports an error has none. *)

Definition clGetPlatformIDs : M Z :=
  emit EvGetPlatformIDs ;; mret (st_GetPlatformIDs env).

Definition clGetDeviceIDs (device_type : Z) : M Z :=
  emit (EvGetDeviceIDs device_type) ;; mret (st_GetDeviceIDs env device_type).

Definition clCreateContext : M Z :=
  emit EvCreateContext ;; mret (st_CreateContext env).

Definition clCreateProgramWithSource : M Z :=
  emit EvCreateProgramWithSource ;; mret (st_CreateProgramWithSource env).

Definition clBuildProgram : M Z :=
  emit EvBuildProgram ;; mret (st_BuildProgram env).

Definition clGetProgramBuildInfo : M unit := emit EvGetProgramBuildInfo.

Definition clCreateCommandQueueWithProperties : M Z :=
  emit EvCreateCommandQueue ;; mret (st_CreateCommandQueue env).

Definition clCreateKernel (name : string) : M Z :=
  emit (EvCreateKernel name) ;; mret (st_CreateKernel env).

(** The handle of a new buffer is the number of the call that made it. *)
Definition clCreateBuffer (bytes : Z) : M (option nat) := fun s =>
  let k := created s in
  let s1 := set_created (S k) (set_trace (trace s ++ [EvCreateBuffer bytes]) s) in
  if CreateBuffer_ok env k
  then Ret (Some k)
         (set_buffers
            (<[k := {| buf_bytes := bytes;
                       buf_data := junk_block (bytes / sizeof_int) |}]>
               (buffers s1)) s1)
  else Ret None s1.

(** Blocking write of [bytes] bytes from the host block [src]. *)
Definition clEnqueueWriteBuffer (buf : option nat) (bytes : Z) (src : Ptr)
  : M Z := fun s =>
  let k := uploads s in
  let st := st_EnqueueWriteBuffer env k in
  let s1 :=
    set_uploads (S k) (set_trace (trace s ++ [EvEnqueueWriteBuffer buf bytes]) s) in
  if st =? CL_SUCCESS then
    match buf, src with
    | Some h, Block cells =>
        match buffers s1 !! h with
        | Some b =>
            Ret st (set_buffers
                      (<[h := with_data b
                                (blit (Z.to_nat (bytes / sizeof_int)) cells
                                   (buf_data b))]> (buffers s1)) s1)
        | None => Ret st s1
        end
    | _, _ => Ret st s1
    end
  else Ret st s1.

Definition clSetKernelArg (index : Z) (v : KArg) : M Z := fun s =>
  let st := st_SetKernelArg env index in
  let s1 := set_trace (trace s ++ [EvSetKernelArg index]) s in
  if st =? CL_SUCCESS
  then Ret st (set_kargs (<[index := v]> (kargs s1)) s1)
  else Ret st s1.

(** The kernel runs with the arguments bound to its four slots; with a
    slot unbound, or bound to something that is no live buffer, nothing
    runs. *)
Definition run_kernel (global : Z) (s : State) : State :=
  match kargs s !! 0, kargs s !! 1, kargs s !! 2, kargs s !! 3 with
  | Some (KInt _), Some (KMem (Some h1)), Some (KMem (Some h2)),
    Some (KMem (Some h3)) =>
      match buffers s !! h1, buffers s !! h2, buffers s !! h3 with
      | Some a, Some b, Some o =>
          set_buffers
            (<[h3 := with_data o
                       (nd_range global (buf_data a) (buf_data b) (buf_data o))]>
               (buffers s)) s
      | _, _, _ => s
      end
  | _, _, _, _ => s
  end.

(** The queue is in order and the only look at the result is the blocking
    read that follows, so the kernel's effect is applied at the enqueue. *)
Definition clEnqueueNDRangeKernel (global : Z) : M Z := fun s =>
  let st := st_EnqueueNDRangeKernel env in
  let s1 := set_trace (trace s ++ [EvEnqueueNDRangeKernel global]) s in
  if st =? CL_SUCCESS then Ret st (run_kernel global s1) else Ret st s1.

Definition clWaitForEvents : M Z :=
  emit EvWaitForEvents ;; mret (st_WaitForEvents env).

(** Blocking read of [bytes] bytes into the host block held by [A]. *)
Definition clEnqueueReadBuffer (buf : option nat) (bytes : Z) (A : HostVar)
  : M Z := fun s =>
  let st := st_EnqueueReadBuffer env in
  let s1 := set_trace (trace s ++ [EvEnqueueReadBuffer buf bytes]) s in
  if st =? CL_SUCCESS then
    match buf, host A s1 with
    | Some h, Block cells =>
        match buffers s1 !! h with
        | Some b =>
            Ret st (set_host A
                      (Block (blit (Z.to_nat (bytes / sizeof_int)) (buf_data b)
                                cells)) s1)
        | None => Ret st s1
        end
    | _, _ => Ret st s1
    end
  else Ret st s1.

Definition clReleaseMemObject (buf : option nat) : M unit := fun s =>
  let s1 := set_trace (trace s ++ [EvReleaseMemObject buf]) s in
  match buf with
  | Some h => Ret tt (set_buffers (delete h (buffers s1)) s1)
  | None => Ret tt s1
  end.

(** *** The functions of the program *)

(** [void init(int *&A, int size)] *)
Definition init (A : HostVar) (size : Z) : M unit :=
  p ← malloc (wrap_size (sizeof_int * wrap_size size));
  modify (set_host A p) ;;
  for_range 0 size (fun i => r ← rand; store A i (Z.rem r 100)).

(** [void print(int *A, int size)] *)
Definition print (A : HostVar) (size : Z) : M unit :=
  if PRINT =? 0 then mret tt
  else
    (if (PRINT =? 1) && (size >? 15) then
       for_range 0 5 (fun i => x ← load A i; printf_d x) ;;
       printf " ..... " ;;
       for_range (size - 5) size (fun i => x ← load A i; printf_d x)
     else
       for_range 0 size (fun i => x ← load A i; printf_d x)) ;;
    printf (nl +:+ "----------------------------" +:+ nl).

(** [cl_device_id create_device()]; [err] is a local here. *)
Definition create_device : M unit :=
  err ← clGetPlatformIDs;
  (if err <? 0 then perror "Couldn't identify a platform" ;; exit 1
   else mret tt) ;;
  err ← clGetDeviceIDs CL_DEVICE_TYPE_GPU;
  err ← (if err =? CL_DEVICE_NOT_FOUND
         then printf ("GPU not found, using CPU" +:+ nl) ;;
              clGetDeviceIDs CL_DEVICE_TYPE_CPU
         else mret err);
  if err <? 0 then perror "Couldn't access any devices" ;; exit 1
  else mret tt.

(** [cl_program build_program(ctx, dev, filename)]; [err] is the global
    here.  The text of the build log is left out of the message. *)
Definition build_program (filename : string) : M unit :=
  program_handle ← fopen filename;
  (if negb program_handle
   then perror "Couldn't find the program file" ;; exit 1
   else mret tt) ;;
  program_buffer ← malloc (wrap_size (program_size env + 1));
  (match program_buffer with
   | Block _ => mret tt
   | _ => fault            (* [program_buffer[program_size] = 0] *)
   end) ;;
  e ← clCreateProgramWithSource; modify (set_err e) ;;
  e ← gets err;
  (if e <? 0 then perror "Couldn't create the program" ;; exit 1
   else mret tt) ;;
  e ← clBuildProgram; modify (set_err e) ;;
  e ← gets err;
  if e <? 0 then
    clGetProgramBuildInfo ;;
    program_log ← malloc (wrap_size (log_size env + 1));
    (match program_log with
     | Block _ => mret tt
     | _ => fault          (* [program_log[log_size] = 0] *)
     end) ;;
    clGetProgramBuildInfo ;;
    printf ("Program Build Error (" +:+ pretty e +:+ "):" +:+ nl) ;;
    exit 1
  else mret tt.

(** [void setup_openCL_device_context_queue_kernel(filename, kernelname)];
    [err] is a local here. *)
Definition setup_openCL_device_context_queue_kernel
    (filename kernelname : string) : M unit :=
  create_device ;;
  err ← clCreateContext;
  (if err <? 0 then perror "Couldn't create a context" ;; exit 1
   else mret tt) ;;
  build_program filename ;;
  err ← clCreateCommandQueueWithProperties;
  (if err <? 0 then perror "Couldn't create a command queue" ;; exit 1
   else mret tt) ;;
  err ← clCreateKernel kernelname;
  if err <? 0
  then perror "Couldn't create a kernel" ;;
       printf ("error =" +:+ pretty err) ;; exit 1
  else mret tt.

(** [void setup_kernel_memory()] *)
Definition setup_kernel_memory : M unit :=
  sz ← gets SZ; b ← clCreateBuffer (size_bytes sz); modify (set_bufV1 b) ;;
  sz ← gets SZ; b ← clCreateBuffer (size_bytes sz); modify (set_bufV2 b) ;;
  sz ← gets SZ; b ← clCreateBuffer (size_bytes sz); modify (set_bufV_out b) ;;
  b1 ← gets bufV1; b2 ← gets bufV2; b3 ← gets bufV_out;
  (if is_null b1 || is_null b2 || is_null b3
   then perror "Couldn't create a buffer" ;; exit 1
   else mret tt) ;;
  b1 ← gets bufV1; sz ← gets SZ; p ← gets v1;
  clEnqueueWriteBuffer b1 (size_bytes sz) p ;;
  b2 ← gets bufV2; sz ← gets SZ; p ← gets v2;
  clEnqueueWriteBuffer b2 (size_bytes sz) p ;;
  mret tt.

(** [void copy_kernel_args()]; the four statuses are dropped and the test
    reads the global [err]. *)
Definition copy_kernel_args : M unit :=
  sz ← gets SZ; clSetKernelArg 0 (KInt sz) ;;
  b ← gets bufV1; clSetKernelArg 1 (KMem b) ;;
  b ← gets bufV2; clSetKernelArg 2 (KMem b) ;;
  b ← gets bufV_out; clSetKernelArg 3 (KMem b) ;;
  e ← gets err;
  if e <? 0
  then perror "Couldn't create a kernel argument" ;;
       printf ("error = " +:+ pretty e) ;; exit 1
  else mret tt.

(** [void free_memory()] *)
Definition free_memory : M unit :=
  b ← gets bufV1; clReleaseMemObject b ;;
  b ← gets bufV2; clReleaseMemObject b ;;
  b ← gets bufV_out; clReleaseMemObject b ;;
  emit EvReleaseKernel ;;
  emit EvReleaseCommandQueue ;;
  emit EvReleaseProgram ;;
  emit EvReleaseContext ;;
  free V1 ;;
  free V2 ;;
  free V_out.

(** The statements of [main], in order.  The local [global[0]] is
    [(size_t)SZ]; [SZ] is not assigned after the first statement, so the
    dispatch reads it where it is used. *)
Definition main_body : list (M unit) :=
  [ (* 0 *) match argv1 env with
            | Some a => modify (set_SZ (wrap_int a))
            | None => mret tt
            end;
    (* 1 *) sz ← gets SZ; init V1 sz;
    (* 2 *) sz ← gets SZ; init V2 sz;
    (* 3 *) sz ← gets SZ; init V_out sz;
    (* 4 *) sz ← gets SZ; print V1 sz;
    (* 5 *) sz ← gets SZ; print V2 sz;
    (* 6 *) setup_openCL_device_context_queue_kernel
              "./vector_ops_ocl.cl" "vector_add_ocl";
    (* 7 *) setup_kernel_memory;
    (* 8 *) copy_kernel_args;
    (* 9 *) now;
    (* 10 *) sz ← gets SZ; clEnqueueNDRangeKernel (wrap_size sz) ;; mret tt;
    (* 11 *) clWaitForEvents ;; mret tt;
    (* 12 *) b ← gets bufV_out; sz ← gets SZ;
             clEnqueueReadBuffer b (size_bytes sz) V_out ;; mret tt;
    (* 13 *) sz ← gets SZ; print V_out sz;
    (* 14 *) now;
    (* 15 *) emit EvReportTime;
    (* 16 *) free_memory ].

(** The process after the first [k] statements of [main]. *)
Definition main_prefix (k : nat) : Outcome unit :=
  sequence_ (take k main_body) initial_state.

(** [int main(int argc, char **argv)] *)
Definition main : Outcome Z :=
  (sequence_ main_body ;; mret 0) initial_state.

End Program.

(** ** Concrete environments *)

(** The generator the C standard gives as its sample [rand]:
    [next = next * 1103515245 + 12345; return (next / 65536) % 32768;]
    over a 64-bit [unsigned long]. *)
Definition rand_c_sample (next : Z) : Z * Z :=
  let next' := (next * 1103515245 + 12345) mod 2 ^ 64 in
  ((next' / 65536) mod 32768, next').

(** A run with [argv[1] = n] in which every call succeeds. *)
Definition env_ok (n : Z) : Env :=
  {| argv1 := Some n; malloc_ok := fun _ => true; junk := fun _ => 0;
     rand_impl := rand_c_sample;
     st_GetPlatformIDs := CL_SUCCESS; st_GetDeviceIDs := fun _ => CL_SUCCESS;
     st_CreateContext := CL_SUCCESS; fopen_ok := true;
     program_size := 200; log_size := 0;
     st_CreateProgramWithSource := CL_SUCCESS; st_BuildProgram := CL_SUCCESS;
     st_CreateCommandQueue := CL_SUCCESS; st_CreateKernel := CL_SUCCESS;
     CreateBuffer_ok := fun _ => true;
     st_EnqueueWriteBuffer := fun _ => CL_SUCCESS;
     st_SetKernelArg := fun _ => CL_SUCCESS;
     st_EnqueueNDRangeKernel := CL_SUCCESS; st_WaitForEvents := CL_SUCCESS;
     st_EnqueueReadBuffer := CL_SUCCESS |}.

(** [env_ok n], except that the platform has no GPU
    ([CL_DEVICE_NOT_FOUND]) and answers [cpu] to the request for a CPU. *)
Definition env_no_gpu (n cpu : Z) : Env :=
  {| argv1 := Some n; malloc_ok := fun _ => true; junk := fun _ => 0;
     rand_impl := rand_c_sample;
     st_GetPlatformIDs := CL_SUCCESS;
     st_GetDeviceIDs := fun ty =>
       if ty =? CL_DEVICE_TYPE_GPU then CL_DEVICE_NOT_FOUND else cpu;
     st_CreateContext := CL_SUCCESS; fopen_ok := true;
     program_size := 200; log_size := 0;
     st_CreateProgramWithSource := CL_SUCCESS; st_BuildProgram := CL_SUCCESS;
     st_CreateCommandQueue := CL_SUCCESS; st_CreateKernel := CL_SUCCESS;
     CreateBuffer_ok := fun _ => true;
     st_EnqueueWriteBuffer := fun _ => CL_SUCCESS;
     st_SetKernelArg := fun _ => CL_SUCCESS;
     st_EnqueueNDRangeKernel := CL_SUCCESS; st_WaitForEvents := CL_SUCCESS;
     st_EnqueueReadBuffer := CL_SUCCESS |}.

(** [env_ok n], except that every [clSetKernelArg] answers
    [CL_INVALID_ARG_SIZE] (-51). *)
Definition env_bind_fails (n : Z) : Env :=
  {| argv1 := Some n; malloc_ok := fun _ => true; junk := fun _ => 0;
     rand_impl := rand_c_sample;
     st_GetPlatformIDs := CL_SUCCESS; st_GetDeviceIDs := fun _ => CL_SUCCESS;
     st_CreateContext := CL_SUCCESS; fopen_ok := true;
     program_size := 200; log_size := 0;
     st_CreateProgramWithSource := CL_SUCCESS; st_BuildProgram := CL_SUCCESS;
     st_CreateCommandQueue := CL_SUCCESS; st_CreateKernel := CL_SUCCESS;
     CreateBuffer_ok := fun _ => true;
     st_EnqueueWriteBuffer := fun _ => CL_SUCCESS;
     st_SetKernelArg := fun _ => -51;
     st_EnqueueNDRangeKernel := CL_SUCCESS; st_WaitForEvents := CL_SUCCESS;
     st_EnqueueReadBuffer := CL_SUCCESS |}.

(** [env_ok n], except that the read-back answers [CL_OUT_OF_RESOURCES]
    (-5). *)
Definition env_read_fails (n : Z) : Env :=
  {| argv1 := Some n; malloc_ok := fun _ => true; junk := fun _ => 0;
     rand_impl := rand_c_sample;
     st_GetPlatformIDs := CL_SUCCESS; st_GetDeviceIDs := fun _ => CL_SUCCESS;
     st_CreateContext := CL_SUCCESS; fopen_ok := true;
     program_size := 200; log_size := 0;
     st_CreateProgramWithSource := CL_SUCCESS; st_BuildProgram := CL_SUCCESS;
     st_CreateCommandQueue := CL_SUCCESS; st_CreateKernel := CL_SUCCESS;
     CreateBuffer_ok := fun _ => true;
     st_EnqueueWriteBuffer := fun _ => CL_SUCCESS;
     st_SetKernelArg := fun _ => CL_SUCCESS;
     st_EnqueueNDRangeKernel := CL_SUCCESS; st_WaitForEvents := CL_SUCCESS;
     st_EnqueueReadBuffer := -5 |}.

(** [env_ok n], except that no [malloc] succeeds. *)
Definition env_no_memory (n : Z) : Env :=
  {| argv1 := Some n; malloc_ok := fun _ => false; junk := fun _ => 0;
     rand_impl := rand_c_sample;
     st_GetPlatformIDs := CL_SUCCESS; st_GetDeviceIDs := fun _ => CL_SUCCESS;
     st_CreateContext := CL_SUCCESS; fopen_ok := true;
     program_size := 200; log_size := 0;
     st_CreateProgramWithSource := CL_SUCCESS; st_BuildProgram := CL_SUCCESS;
     st_CreateCommandQueue := CL_SUCCESS; st_CreateKernel := CL_SUCCESS;
     CreateBuffer_ok := fun _ => true;
     st_EnqueueWriteBuffer := fun _ => CL_SUCCESS;
     st_SetKernelArg := fun _ => CL_SUCCESS;
     st_EnqueueNDRangeKernel := CL_SUCCESS; st_WaitForEvents := CL_SUCCESS;
     st_EnqueueReadBuffer := CL_SUCCESS |}.

(** [env_ok n], except that the kernel source file cannot be opened. *)
Definition env_no_file (n : Z) : Env :=
  {| argv1 := Some n; malloc_ok := fun _ => true; junk := fun _ => 0;
     rand_impl := rand_c_sample;
     st_GetPlatformIDs := CL_SUCCESS; st_GetDeviceIDs := fun _ => CL_SUCCESS;
     st_CreateContext := CL_SUCCESS; fopen_ok := false;
     program_size := 200; log_size := 0;
     st_CreateProgramWithSource := CL_SUCCESS; st_BuildProgram := CL_SUCCESS;
     st_CreateCommandQueue := CL_SUCCESS; st_CreateKernel := CL_SUCCESS;
     CreateBuffer_ok := fun _ => true;
     st_EnqueueWriteBuffer := fun _ => CL_SUCCESS;
     st_SetKernelArg := fun _ => CL_SUCCESS;
     st_EnqueueNDRangeKernel := CL_SUCCESS; st_WaitForEvents := CL_SUCCESS;
     st_EnqueueReadBuffer := CL_SUCCESS |}.

(** [env_ok n], except that no platform is found. *)
Definition env_no_platform (n : Z) : Env :=
  {| argv1 := Some n; malloc_ok := fun _ => true; junk := fun _ => 0;
     rand_impl := rand_c_sample;
     st_GetPlatformIDs := -1001; st_GetDeviceIDs := fun _ => CL_SUCCESS;
     st_CreateContext := CL_SUCCESS; fopen_ok := true;
     program_size := 200; log_size := 0;
     st_CreateProgramWithSource := CL_SUCCESS; st_BuildProgram := CL_SUCCESS;
     st_CreateCommandQueue := CL_SUCCESS; st_CreateKernel := CL_SUCCESS;
     CreateBuffer_ok := fun _ => true;
     st_EnqueueWriteBuffer := fun _ => CL_SUCCESS;
     st_SetKernelArg := fun _ => CL_SUCCESS;
     st_EnqueueNDRangeKernel := CL_SUCCESS; st_WaitForEvents := CL_SUCCESS;
     st_EnqueueReadBuffer := CL_SUCCESS |}.


(** A run with [argv[1] = n] in which the host arrays are not granted, the
    device refuses every buffer, and every other call succeeds. *)
Definition env_no_buffer (n : Z) : Env :=
  {| argv1 := Some n; malloc_ok := fun k => (3 <=? k)%nat; junk := fun _ => 0;
     rand_impl := rand_c_sample;
     st_GetPlatformIDs := CL_SUCCESS; st_GetDeviceIDs := fun _ => CL_SUCCESS;
     st_CreateContext := CL_SUCCESS; fopen_ok := true;
     program_size := 200; log_size := 0;
     st_CreateProgramWithSource := CL_SUCCESS; st_BuildProgram := CL_SUCCESS;
     st_CreateCommandQueue := CL_SUCCESS; st_CreateKernel := CL_SUCCESS;
     CreateBuffer_ok := fun _ => false;
     st_EnqueueWriteBuffer := fun _ => CL_SUCCESS;
     st_SetKernelArg := fun _ => CL_SUCCESS;
     st_EnqueueNDRangeKernel := CL_SUCCESS; st_WaitForEvents := CL_SUCCESS;
     st_EnqueueReadBuffer := CL_SUCCESS |}.

(** ** Reading a trace *)

(** The device types asked of [clGetDeviceIDs], in order. *)
Definition device_requests (tr : list Event) : list Z :=
  omap (fun e => match e with EvGetDeviceIDs ty => Some ty | _ => None end) tr.

Definition is_create_buffer (e : Event) : bool :=
  match e with EvCreateBuffer _ => true | _ => false end.

(** The events after the first time stamp and before the next one. *)
Fixpoint until_now (tr : list Event) : list Event :=
  match tr with
  | [] => []
  | EvNow :: _ => []
  | e :: tr' => e :: until_now tr'
  end.

Fixpoint timed_events (tr : list Event) : list Event :=
  match tr with
  | [] => []
  | EvNow :: tr' => until_now tr'
  | _ :: tr' => timed_events tr'
  end.

Arguments device_requests : simpl never.

(** ** Notions used in the statements *)

(** The values a run of [n] calls of [rand] stores, and the generator
    state it leaves, for a generator [step] started in state [g]. *)
Fixpoint rand_values (step : Z -> Z * Z) (n : nat) (g : Z) : list Z :=
  match n with
  | O => []
  | S n' => Z.rem (step g).1 100 :: rand_values step n' (step g).2
  end.

Fixpoint rand_after (step : Z -> Z * Z) (n : nat) (g : Z) : Z :=
  match n with
  | O => g
  | S n' => rand_after step n' (step g).2
  end.

(** The cells a pointer variable gives access to. *)
Definition cells_of (p : Ptr) : list Z :=
  match p with Block cells => cells | _ => [] end.

(** The values [init] stored for a length [size]: cells [0 .. size-1]. *)
Definition stored (size : Z) (p : Ptr) : list Z :=
  take (Z.to_nat size) (cells_of p).

(** The text a trace wrote to standard output. *)
Definition stdout_text (tr : list Event) : string :=
  foldr (fun e acc => match e with EvStdout t => t +:+ acc | _ => acc end)
    EmptyString tr.

(** What [printf("%d ", x)] logs. *)
Definition shown (x : Z) : Event := EvStdout (pretty x +:+ " ").

(** The separator line that ends every [print]. *)
Definition separator : Event :=
  EvStdout (nl +:+ "----------------------------" +:+ nl).

(** The events one call of [print] adds for an array [cells]. *)
Definition print_events (cells : list Z) : list Event :=
  (if 15 <? Z.of_nat (length cells)
   then map shown (take 5 cells) ++ [EvStdout " ..... "] ++
        map shown (drop (length cells - 5) cells)
   else map shown cells) ++ [separator].

(** The status [create_device] tests last. *)
Definition chosen_status (env : Env) : Z :=
  if st_GetDeviceIDs env CL_DEVICE_TYPE_GPU =? CL_DEVICE_NOT_FOUND
  then st_GetDeviceIDs env CL_DEVICE_TYPE_CPU
  else st_GetDeviceIDs env CL_DEVICE_TYPE_GPU.

(** The vector length the run uses. *)
Definition run_length (env : Env) : Z :=
  match argv1 env with Some a => wrap_int a | None => SZ_default end.

(** The process when [main] has read its argument. *)
Definition started (env : Env) : State :=
  set_SZ (run_length env) initial_state.

Definition is_stdout (e : Event) : bool :=
  match e with EvStdout _ => true | _ => false end.

(** No device buffer exists, none was asked for, and nothing but output
    was logged. *)
Definition host_only (s : State) : Prop :=
  buffers s = ∅ /\ created s = 0%nat /\ forallb is_stdout (trace s) = true.

(** The statements of [main] up to the second [print]. *)
Definition host_phase (env : Env) : M unit :=
  sequence_ (take 6 (main_body env)).

Definition kernel_file : string := "./vector_ops_ocl.cl".
Definition kernel_name : string := "vector_add_ocl".

(** Every buffer in device memory, and every buffer ever asked for, has
    [SZ * sizeof(int)] bytes, and [SZ] is the length the run started
    with. *)
Definition sized (env : Env) (s : State) : Prop :=
  SZ s = run_length env /\
  (forall h b, buffers s !! h = Some b -> buf_bytes b = size_bytes (SZ s)) /\
  (forall bytes, EvCreateBuffer bytes ∈ trace s -> bytes = size_bytes (SZ s)).

(** Addition of two [int]s. *)
Definition sum_int (x y : Z) : Z := wrap_int (x + y).

(** What the host statements leave alone on the device side. *)
Definition device_view (s : State) :=
  (SZ s, buffers s, created s, uploads s, kargs s).

Definition host_view (s : State) := (v1 s, v2 s, v_out s).

(** [m] keeps [P]: from a state with [P] it ends (returning, exiting or
    faulting) in a state with [P]. *)
Definition preserves (P : State -> Prop) {A} (m : M A) : Prop :=
  forall s, P s -> P (state_of (m s)).

(** A state update that keeps [P]. *)
Definition stable (P : State -> Prop) (f : State -> State) : Prop :=
  forall s, P s -> P (f s).

(** [m] never leaves through [exit]. *)
Definition no_exit {A} (m : M A) : Prop :=
  forall s c s', m s <> Exit c s'.

Definition is_now (e : Event) : bool :=
  match e with EvNow => true | _ => false end.

(** Since the trace was [tr0], only events accepted by [ok] were logged. *)
Definition logged_since (ok : Event -> bool) (tr0 : list Event) (s : State)
  : Prop :=
  exists out, trace s = tr0 ++ out /\ forallb ok out = true.

(** ** Notions used in the further properties *)

(** What [print] may have done to a state [s0]: added output. *)
Definition output_added (s0 s : State) : Prop :=
  exists out, s = set_trace (trace s0 ++ out) s0 /\ forallb is_stdout out = true.

(** What [create_device] logs when it returns. *)
Definition device_events (env : Env) : list Event :=
  [EvGetPlatformIDs; EvGetDeviceIDs CL_DEVICE_TYPE_GPU] ++
  (if st_GetDeviceIDs env CL_DEVICE_TYPE_GPU =? CL_DEVICE_NOT_FOUND
   then [EvStdout ("GPU not found, using CPU" +:+ nl);
         EvGetDeviceIDs CL_DEVICE_TYPE_CPU]
   else []).

(** What the device set-up logs when it returns. *)
Definition setup_events (env : Env) (file name : string) : list Event :=
  device_events env ++
  [EvCreateContext; EvFopen file; EvCreateProgramWithSource; EvBuildProgram;
   EvCreateCommandQueue; EvCreateKernel name].

(** Every call of the device set-up answers a success, the allocation of
    the source text being the [m]-th of the run. *)
Definition setup_succeeds (env : Env) (m : nat) : Prop :=
  0 <= st_GetPlatformIDs env /\ 0 <= chosen_status env /\
  0 <= st_CreateContext env /\ fopen_ok env = true /\
  malloc_ok env m = true /\ 0 <= st_CreateProgramWithSource env /\
  0 <= st_BuildProgram env /\ 0 <= st_CreateCommandQueue env /\
  0 <= st_CreateKernel env.

(** The process after a device set-up that returned. *)
Definition after_setup (env : Env) (file name : string) (s : State) : State :=
  set_err (st_BuildProgram env)
    (set_mallocs (S (mallocs s))
       (set_trace (trace s ++ setup_events env file name) s)).

(** The slot a bind leaves: the new value when it succeeds, what was there
    otherwise. *)
Definition bound (st : Z) (v : KArg) (old : option KArg) : option KArg :=
  if st =? CL_SUCCESS then Some v else old.

(** The variables the device calls are made on. *)
Definition device_handles (s : State) :=
  (SZ s, bufV1 s, bufV2 s, bufV_out s).

(** What [free] leaves in a pointer variable. *)
Definition freed (p : Ptr) : Ptr :=
  match p with Block _ => Dangling | q => q end.

Definition release (h : option nat) (m : gmap nat Buffer) : gmap nat Buffer :=
  match h with Some k => delete k m | None => m end.

(** The releases of [free_memory], in its order. *)
Definition release_events (s : State) : list Event :=
  [EvReleaseMemObject (bufV1 s); EvReleaseMemObject (bufV2 s);
   EvReleaseMemObject (bufV_out s); EvReleaseKernel; EvReleaseCommandQueue;
   EvReleaseProgram; EvReleaseContext].

(** The process after a [free_memory] that returned. *)
Definition after_free_memory (s : State) : State :=
  set_v_out (freed (v_out s))
    (set_v2 (freed (v2 s))
       (set_v1 (freed (v1 s))
          (set_buffers
             (release (bufV_out s) (release (bufV2 s) (release (bufV1 s) (buffers s))))
             (set_trace (trace s ++ release_events s) s)))).

(** The three buffer handles are all non-null for a process that has
    created [k] buffers so far. *)
Definition buffers_granted (env : Env) (k : nat) : bool :=
  CreateBuffer_ok env k && CreateBuffer_ok env (S k) &&
  CreateBuffer_ok env (S (S k)).

(** What [setup_kernel_memory] logs before it tests the handles. *)
Definition creation_events (s : State) : list Event :=
  [EvCreateBuffer (size_bytes (SZ s)); EvCreateBuffer (size_bytes (SZ s));
   EvCreateBuffer (size_bytes (SZ s))].

(** What it logs after the test. *)
Definition upload_events (s : State) : list Event :=
  [EvEnqueueWriteBuffer (Some (created s)) (size_bytes (SZ s));
   EvEnqueueWriteBuffer (Some (S (created s))) (size_bytes (SZ s))].

(** [m] leaves through [exit] with the status [code] only. *)
Definition exits_with (code : Z) {A} (m : M A) : Prop :=
  forall s c s', m s = Exit c s' -> c = code.

Definition is_release (e : Event) : bool :=
  match e with
  | EvReleaseMemObject _ | EvReleaseKernel | EvReleaseCommandQueue
  | EvReleaseProgram | EvReleaseContext => true
  | _ => false
  end.

(** The events of a run that completes, from the device set-up to the
    report of the time, for the output [out] of [print(v_out, SZ)]. *)
Definition device_run_events (env : Env) (out : list Event) : list Event :=
  let n := run_length env in
  let b := size_bytes n in
  setup_events env kernel_file kernel_name ++
  [EvCreateBuffer b; EvCreateBuffer b; EvCreateBuffer b;
   EvEnqueueWriteBuffer (Some 0%nat) b; EvEnqueueWriteBuffer (Some 1%nat) b;
   EvSetKernelArg 0; EvSetKernelArg 1; EvSetKernelArg 2; EvSetKernelArg 3;
   EvNow; EvEnqueueNDRangeKernel (wrap_size n); EvWaitForEvents;
   EvEnqueueReadBuffer (Some 2%nat) b] ++
  out ++ [EvNow; EvReportTime].

(** The releases of a run that completes. *)
Definition teardown_events : list Event :=
  [EvReleaseMemObject (Some 0%nat); EvReleaseMemObject (Some 1%nat);
   EvReleaseMemObject (Some 2%nat); EvReleaseKernel; EvReleaseCommandQueue;
   EvReleaseProgram; EvReleaseContext].



(** * Proofs *)

(** ** Machine integers *)

Lemma wrap_int_small z : - 2 ^ 31 <= z < 2 ^ 31 -> wrap_int z = z.
Proof. intros H. unfold wrap_int. rewrite Z.mod_small; lia. Qed.

Lemma wrap_int_range z : - 2 ^ 31 <= wrap_int z < 2 ^ 31.
Proof.
  unfold wrap_int.
  pose proof (Z.mod_pos_bound (z + 2 ^ 31) (2 ^ 32) ltac:(lia)). lia.
Qed.

Lemma size_bytes_nonneg n : 0 <= n < 2 ^ 31 -> size_bytes n = 4 * n.
Proof.
  intros H. unfold size_bytes, wrap_size, sizeof_int.
  rewrite (Z.mod_small n) by lia. rewrite Z.mod_small; lia.
Qed.

Lemma device_requests_app (a b : list Event) :
  device_requests (a ++ b) = device_requests a ++ device_requests b.
Proof. apply omap_app. Qed.

(** ** Running computations *)

Lemma bind_unfold {A B} (m : M A) (f : A -> M B) (s : State) :
  (m ≫= f) s =
  match m s with
  | Ret a s' => f a s'
  | Exit c s' => Exit c s'
  | Fault s' => Fault s'
  end.
Proof. reflexivity. Qed.

Lemma bind_Ret {A B} (m : M A) (f : A -> M B) (s s' : State) (a : A) :
  m s = Ret a s' -> (m ≫= f) s = f a s'.
Proof. intros H. rewrite bind_unfold, H. reflexivity. Qed.

Lemma sequence_app (l1 l2 : list (M unit)) (s : State) :
  sequence_ (l1 ++ l2) s =
  match sequence_ l1 s with
  | Ret _ s' => sequence_ l2 s'
  | Exit c s' => Exit c s'
  | Fault s' => Fault s'
  end.
Proof.
  revert s. induction l1 as [|m l1 IH]; intros s; [reflexivity|].
  simpl. rewrite !bind_unfold. destruct (m s); auto.
Qed.

(** Unfolds the monad and the logging primitives. *)
Ltac munfold :=
  cbv beta iota zeta delta
    [mbind M_bind mret M_ret gets modify emit exit fault printf perror now
     fopen state_of clGetPlatformIDs clGetDeviceIDs clCreateContext
     clCreateProgramWithSource clBuildProgram clGetProgramBuildInfo
     clCreateCommandQueueWithProperties clCreateKernel clWaitForEvents].

(** ** Device selection *)

Section CreateDevice.
Context (env : Env).

Let gpu := st_GetDeviceIDs env CL_DEVICE_TYPE_GPU.
Let cpu := st_GetDeviceIDs env CL_DEVICE_TYPE_CPU.

Lemma create_device_no_platform s :
  st_GetPlatformIDs env < 0 ->
  exists s', create_device env s = Exit 1 s' /\
             device_requests (trace s') = device_requests (trace s).
Proof.
  intros H. unfold create_device. munfold.
  destruct (Z.ltb_spec (st_GetPlatformIDs env) 0); [|lia].
  eexists; split; [reflexivity|]. simpl.
  rewrite !device_requests_app. cbv [device_requests omap list_omap].
  rewrite !app_nil_r. done.
Qed.

Lemma create_device_requests s :
  0 <= st_GetPlatformIDs env ->
  device_requests (trace (state_of (create_device env s))) =
  device_requests (trace s) ++
    (if gpu =? CL_DEVICE_NOT_FOUND
     then [CL_DEVICE_TYPE_GPU; CL_DEVICE_TYPE_CPU]
     else [CL_DEVICE_TYPE_GPU]).
Proof.
  intros H. unfold create_device. munfold.
  destruct (Z.ltb_spec (st_GetPlatformIDs env) 0); [lia|].
  fold gpu. destruct (gpu =? CL_DEVICE_NOT_FOUND) eqn:Hg.
  - fold cpu. destruct (cpu <? 0); simpl;
      rewrite !device_requests_app; cbv [device_requests omap list_omap];
      rewrite ?app_nil_r, <- ?app_assoc; done.
  - destruct (gpu <? 0); simpl;
      rewrite !device_requests_app; cbv [device_requests omap list_omap];
      rewrite ?app_nil_r, <- ?app_assoc; done.
Qed.

Lemma create_device_outcome s :
  0 <= st_GetPlatformIDs env ->
  (chosen_status env < 0 -> exists s', create_device env s = Exit 1 s') /\
  (0 <= chosen_status env -> exists s', create_device env s = Ret tt s').
Proof.
  intros H. unfold chosen_status, create_device. munfold.
  destruct (Z.ltb_spec (st_GetPlatformIDs env) 0); [lia|].
  fold gpu. destruct (gpu =? CL_DEVICE_NOT_FOUND) eqn:Hg.
  - fold cpu. destruct (Z.ltb_spec cpu 0); split; intros; try lia; eauto.
  - destruct (Z.ltb_spec gpu 0); split; intros; try lia; eauto.
Qed.
End CreateDevice.

(** C7.  Once a platform is identified, [create_device] asks it for a GPU
    first.  It asks for a CPU exactly when the GPU request answered
    [CL_DEVICE_NOT_FOUND], and then after the GPU request.  When neither a
    GPU nor a CPU is to be had (a negative status for each request), the
    process leaves through [exit(1)].  When the GPU request succeeds, or it
    answers [CL_DEVICE_NOT_FOUND] and the CPU request succeeds,
    [create_device] returns. *)
Theorem create_device_gpu_then_cpu (env : Env) (s : State) :
  0 <= st_GetPlatformIDs env ->
  let gpu := st_GetDeviceIDs env CL_DEVICE_TYPE_GPU in
  let cpu := st_GetDeviceIDs env CL_DEVICE_TYPE_CPU in
  let asked :=
    drop (length (device_requests (trace s)))
      (device_requests (trace (state_of (create_device env s)))) in
  head asked = Some CL_DEVICE_TYPE_GPU /\
  (gpu = CL_DEVICE_NOT_FOUND <-> CL_DEVICE_TYPE_CPU ∈ asked) /\
  (gpu = CL_DEVICE_NOT_FOUND ->
   asked = [CL_DEVICE_TYPE_GPU; CL_DEVICE_TYPE_CPU]) /\
  (gpu < 0 -> cpu < 0 -> exists s', create_device env s = Exit 1 s') /\
  (0 <= gpu -> exists s', create_device env s = Ret tt s') /\
  (gpu = CL_DEVICE_NOT_FOUND -> 0 <= cpu ->
   exists s', create_device env s = Ret tt s').
Proof.
  intros Hp gpu cpu asked.
  assert (Hasked : asked = if gpu =? CL_DEVICE_NOT_FOUND
                           then [CL_DEVICE_TYPE_GPU; CL_DEVICE_TYPE_CPU]
                           else [CL_DEVICE_TYPE_GPU]).
  { unfold asked. rewrite create_device_requests by done.
    rewrite drop_app_length. done. }
  pose proof (create_device_outcome env s Hp) as [Hneg Hpos].
  unfold chosen_status in Hneg, Hpos. fold gpu cpu in Hneg, Hpos.
  rewrite Hasked.
  destruct (Z.eqb_spec gpu CL_DEVICE_NOT_FOUND) as [Heq|Hne]; split_and!.
  - done.
  - split; [intros _; set_solver | done].
  - done.
  - intros _ Hc. apply Hneg. done.
  - intros Hg. rewrite Heq in Hg. unfold CL_DEVICE_NOT_FOUND in Hg. lia.
  - intros _ Hc. apply Hpos. done.
  - done.
  - split; [done|]. intros Hin. apply list_elem_of_singleton in Hin.
    discriminate.
  - done.
  - intros Hg _. apply Hneg. done.
  - intros Hg. apply Hpos. done.
  - done.
Qed.

Lemma create_device_gpu_then_cpu_witness :
  0 <= st_GetPlatformIDs (env_no_gpu 3 (-1)) /\
  exists s', create_device (env_no_gpu 3 (-1)) initial_state = Exit 1 s'.
Proof.
  split; [vm_compute; discriminate|].
  apply (create_device_gpu_then_cpu (env_no_gpu 3 (-1)) initial_state);
    vm_compute; congruence.
Defined.

(** ** Host arrays: [init] and [print] *)

Lemma host_set_host A p s : host A (set_host A p s) = p.
Proof. destruct A; reflexivity. Qed.

Lemma host_set_rand_state A g s : host A (set_rand_state g s) = host A s.
Proof. destruct A; reflexivity. Qed.

Lemma rand_state_set_host A p s : rand_state (set_host A p s) = rand_state s.
Proof. destruct A; reflexivity. Qed.

Lemma set_trace_id s : set_trace (trace s) s = s.
Proof. destruct s; reflexivity. Qed.

Lemma set_trace_twice t t' s : set_trace t (set_trace t' s) = set_trace t s.
Proof. destruct s; reflexivity. Qed.

Lemma rand_values_length step n g : length (rand_values step n g) = n.
Proof. revert g. induction n; intros g; simpl; [done|]. by rewrite IHn. Qed.

Lemma rand_values_range step n g x :
  (forall g', 0 <= (step g').1) ->
  x ∈ rand_values step n g -> 0 <= x < 100.
Proof.
  intros Hstep. revert g. induction n as [|n IH]; intros g Hin; simpl in Hin.
  - by apply not_elem_of_nil in Hin.
  - apply elem_of_cons in Hin as [->|Hin]; [|by eapply IH].
    pose proof (Hstep g).
    pose proof (Z.rem_bound_pos (step g).1 100 ltac:(done) ltac:(lia)). lia.
Qed.

Section HostArrays.
Context (env : Env).

Lemma init_loop A n : forall k cells s,
  host A s = Block cells ->
  length cells = (k + n)%nat ->
  for_loop n (Z.of_nat k) (fun i => r ← rand env; store A i (Z.rem r 100)) s =
  Ret tt
    (set_rand_state (rand_after (rand_impl env) n (rand_state s))
       (set_host A
          (Block (take k cells ++ rand_values (rand_impl env) n (rand_state s)))
          s)).
Proof.
  induction n as [|n IH]; intros k cells s Hhost Hlen.
  - simpl. rewrite app_nil_r, take_ge by lia. rewrite <- Hhost.
    unfold mret, M_ret. f_equal. destruct A, s; reflexivity.
  - simpl. rewrite bind_unfold.
    assert (Hbody : (r ← rand env; store A (Z.of_nat k) (Z.rem r 100)) s =
                    Ret tt (set_host A
                              (Block (<[k := Z.rem (rand_impl env (rand_state s)).1 100]> cells))
                              (set_rand_state (rand_impl env (rand_state s)).2 s))).
    { rewrite bind_unfold. unfold rand.
      destruct (rand_impl env (rand_state s)) as [r g'] eqn:Hstep. simpl.
      unfold store. rewrite host_set_rand_state, Hhost.
      destruct (Z.leb_spec 0 (Z.of_nat k)); [|lia].
      destruct (Z.ltb_spec (Z.of_nat k) (Z.of_nat (length cells))); [|lia].
      simpl. rewrite Nat2Z.id. reflexivity. }
    rewrite Hbody. clear Hbody.
    replace (Z.of_nat k + 1) with (Z.of_nat (S k)) by lia.
    rewrite (IH (S k) (<[k := Z.rem (rand_impl env (rand_state s)).1 100]> cells)).
    + rewrite rand_state_set_host. simpl.
      rewrite (take_S_r _ _ (Z.rem (rand_impl env (rand_state s)).1 100)).
      * rewrite take_insert_ge by lia. rewrite <- app_assoc. simpl.
        f_equal. destruct A, s; reflexivity.
      * apply list_lookup_insert_eq. lia.
    + apply host_set_host.
    + rewrite length_insert. lia.
Qed.

Lemma junk_block_length n : length (junk_block env n) = Z.to_nat n.
Proof. unfold junk_block. by rewrite length_map, length_seq. Qed.

Lemma init_block_cells size :
  0 <= size < 2 ^ 31 ->
  wrap_size (sizeof_int * wrap_size size) / sizeof_int = size.
Proof.
  intros H. unfold wrap_size, sizeof_int.
  rewrite (Z.mod_small size) by lia. rewrite Z.mod_small by lia.
  rewrite Z.mul_comm. apply Z.div_mul. done.
Qed.

(** [init] when the allocation succeeds: the array holds [size] values
    drawn from the generator, whatever the block held before. *)
Lemma init_allocated A size s :
  0 <= size < 2 ^ 31 ->
  malloc_ok env (mallocs s) = true ->
  init env A size s =
  Ret tt
    (set_rand_state (rand_after (rand_impl env) (Z.to_nat size) (rand_state s))
       (set_host A
          (Block (rand_values (rand_impl env) (Z.to_nat size) (rand_state s)))
          (set_mallocs (S (mallocs s)) s))).
Proof.
  intros Hsize Hok. unfold init, malloc. rewrite bind_unfold, Hok.
  cbv beta iota. rewrite bind_unfold. cbv beta iota delta [modify].
  unfold for_range. rewrite Z.sub_0_r. change 0 with (Z.of_nat 0).
  rewrite (init_loop A (Z.to_nat size) 0
             (junk_block env (wrap_size (sizeof_int * wrap_size size) / sizeof_int))).
  - f_equal. destruct A, s; reflexivity.
  - apply host_set_host.
  - rewrite junk_block_length, init_block_cells by done. lia.
Qed.

(** [init] when the allocation fails. *)
Lemma init_null A size s :
  malloc_ok env (mallocs s) = false ->
  init env A size s =
  if 0 <? size
  then Fault (set_rand_state (rand_impl env (rand_state s)).2
                (set_host A Null (set_mallocs (S (mallocs s)) s)))
  else Ret tt (set_host A Null (set_mallocs (S (mallocs s)) s)).
Proof.
  intros Hok. unfold init, malloc. rewrite bind_unfold, Hok.
  cbv beta iota. rewrite bind_unfold. cbv beta iota delta [modify].
  unfold for_range. rewrite Z.sub_0_r.
  destruct (Z.ltb_spec 0 size) as [Hpos|Hneg].
  - destruct (Z.to_nat size) as [|n] eqn:Hn; [lia|].
    simpl. rewrite !bind_unfold. unfold rand.
    destruct (rand_impl env _) as [r g'] eqn:Hstep. simpl.
    unfold store. rewrite host_set_rand_state, host_set_host.
    f_equal. rewrite rand_state_set_host in Hstep. simpl in Hstep.
    rewrite Hstep. reflexivity.
  - replace (Z.to_nat size) with 0%nat by lia. reflexivity.
Qed.

Lemma print_loop A n : forall k cells s,
  host A s = Block cells ->
  (k + n <= length cells)%nat ->
  for_loop n (Z.of_nat k) (fun i => x ← load A i; printf_d x) s =
  Ret tt (set_trace (trace s ++ map shown (take n (drop k cells))) s).
Proof.
  induction n as [|n IH]; intros k cells s Hhost Hlen.
  - simpl. rewrite app_nil_r, set_trace_id. reflexivity.
  - destruct (lookup_lt_is_Some_2 cells k ltac:(lia)) as [x Hx].
    simpl. rewrite bind_unfold.
    assert (Hbody : (x ← load A (Z.of_nat k); printf_d x) s =
                    Ret tt (set_trace (trace s ++ [shown x]) s)).
    { rewrite bind_unfold. unfold load. rewrite Hhost.
      destruct (Z.leb_spec 0 (Z.of_nat k)); [|lia].
      rewrite Nat2Z.id, Hx. reflexivity. }
    rewrite Hbody. clear Hbody.
    replace (Z.of_nat k + 1) with (Z.of_nat (S k)) by lia.
    rewrite (IH (S k) cells) by (destruct A; done || lia).
    simpl. rewrite set_trace_twice.
    rewrite (drop_S _ _ _ Hx). simpl. rewrite <- app_assoc. reflexivity.
Qed.

Lemma print_block A cells s :
  host A s = Block cells ->
  print A (Z.of_nat (length cells)) s =
  Ret tt (set_trace (trace s ++ print_events cells) s).
Proof.
  intros Hhost. unfold print, print_events. change (PRINT =? 0) with false.
  change (PRINT =? 1) with true. cbv iota. rewrite andb_true_l.
  rewrite Z.gtb_ltb. unfold for_range.
  destruct (Z.ltb_spec 15 (Z.of_nat (length cells))) as [Hbig|Hsmall].
  - rewrite !bind_unfold. change (Z.to_nat (5 - 0)) with 5%nat.
    change 0 with (Z.of_nat 0).
    rewrite (print_loop A 5 0 cells) by (done || lia).
    cbv beta iota. rewrite !bind_unfold.
    unfold printf, emit, modify. cbv beta iota.
    replace (Z.to_nat (Z.of_nat (length cells) - (Z.of_nat (length cells) - 5)))
      with 5%nat by lia.
    replace (Z.of_nat (length cells) - 5)
      with (Z.of_nat (length cells - 5)) by lia.
    rewrite (print_loop A 5 (length cells - 5) cells)
      by (destruct A; done || (simpl; lia)).
    simpl. rewrite !set_trace_twice. rewrite drop_0.
    rewrite (take_ge (drop _ _)) by (rewrite length_drop; lia).
    rewrite <- !app_assoc. reflexivity.
  - rewrite !bind_unfold. rewrite Z.sub_0_r, Nat2Z.id.
    change 0 with (Z.of_nat 0).
    rewrite (print_loop A (length cells) 0 cells) by (done || lia).
    unfold printf, emit, modify. cbv beta iota.
    simpl. rewrite !set_trace_twice. rewrite drop_0, firstn_all.
    rewrite <- !app_assoc. reflexivity.
Qed.
End HostArrays.

Section InitResults.
Context (env : Env).

(** [init] for a length that is not positive: the loop does not run. *)
Lemma init_nonpositive A size s :
  size <= 0 ->
  init env A size s =
  Ret tt (set_host A
            (if malloc_ok env (mallocs s)
             then Block (junk_block env
                           (wrap_size (sizeof_int * wrap_size size) / sizeof_int))
             else Null)
            (set_mallocs (S (mallocs s)) s)).
Proof.
  intros Hsize. unfold init, malloc. rewrite bind_unfold.
  destruct (malloc_ok env (mallocs s)); cbv beta iota;
    rewrite bind_unfold; cbv beta iota delta [modify];
    unfold for_range; replace (Z.to_nat (size - 0)) with 0%nat by lia;
    reflexivity.
Qed.

Lemma host_frame A B p g m s :
  B <> A ->
  host B (set_rand_state g (set_host A p (set_mallocs m s))) = host B s.
Proof. intros Hne. destruct A, B; try done; reflexivity. Qed.

Lemma init_returns A size s s' :
  - 2 ^ 31 <= size < 2 ^ 31 ->
  init env A size s = Ret tt s' ->
  stored size (host A s') =
    rand_values (rand_impl env) (Z.to_nat size) (rand_state s) /\
  rand_state s' = rand_after (rand_impl env) (Z.to_nat size) (rand_state s) /\
  SZ s' = SZ s /\
  (forall B, B <> A -> host B s' = host B s) /\
  (0 < size ->
   host A s' =
     Block (rand_values (rand_impl env) (Z.to_nat size) (rand_state s))).
Proof.
  intros Hsize Hrun.
  destruct (Z.ltb_spec 0 size) as [Hpos|Hneg].
  - destruct (malloc_ok env (mallocs s)) eqn:Hok.
    + rewrite init_allocated in Hrun by (done || lia).
      injection Hrun as <-. split_and!.
      * unfold stored. rewrite host_set_rand_state, host_set_host. simpl.
        apply take_ge. by rewrite rand_values_length.
      * destruct A; reflexivity.
      * destruct A; reflexivity.
      * intros B HB. by apply host_frame.
      * intros _. by rewrite host_set_rand_state, host_set_host.
    + rewrite init_null in Hrun by done.
      destruct (Z.ltb_spec 0 size); [discriminate|lia].
  - rewrite init_nonpositive in Hrun by done. injection Hrun as <-.
    unfold stored. replace (Z.to_nat size) with 0%nat by lia. split_and!.
    + reflexivity.
    + destruct A; reflexivity.
    + destruct A; reflexivity.
    + intros B HB. destruct A, B; try done; reflexivity.
    + intros H. lia.
Qed.

Lemma run_length_range : - 2 ^ 31 <= run_length env < 2 ^ 31.
Proof.
  unfold run_length. destruct (argv1 env); [apply wrap_int_range|].
  unfold SZ_default. lia.
Qed.

Lemma main_prefix_1 : main_prefix env 1 = Ret tt (started env).
Proof.
  unfold main_prefix, main_body, started, run_length. cbn [take sequence_ foldr].
  rewrite bind_unfold. destruct (argv1 env); reflexivity.
Qed.

Lemma main_prefix_S k :
  main_prefix env (S k) = sequence_ (take k (drop 1 (main_body env))) (started env).
Proof.
  unfold main_prefix.
  change (take (S k) (main_body env))
    with (take 1 (main_body env) ++ take k (drop 1 (main_body env))).
  rewrite sequence_app. fold (main_prefix env 1). by rewrite main_prefix_1.
Qed.

(** The host arrays once the three calls of [init] have returned. *)
Lemma main_inits s :
  main_prefix env 4 = Ret tt s ->
  let n := Z.to_nat (run_length env) in
  let step := rand_impl env in
  let g1 := rand_after step n rand_seed_default in
  let g2 := rand_after step n g1 in
  SZ s = run_length env /\
  stored (run_length env) (v1 s) = rand_values step n rand_seed_default /\
  stored (run_length env) (v2 s) = rand_values step n g1 /\
  stored (run_length env) (v_out s) = rand_values step n g2 /\
  (0 < run_length env ->
   v1 s = Block (rand_values step n rand_seed_default) /\
   v2 s = Block (rand_values step n g1) /\
   v_out s = Block (rand_values step n g2)).
Proof.
  pose proof run_length_range as Hrange.
  intros Hrun n step g1 g2.
  rewrite main_prefix_S in Hrun. unfold main_body in Hrun.
  cbn [take drop sequence_ foldr] in Hrun.
  rewrite bind_unfold in Hrun. rewrite bind_unfold in Hrun.
  cbv beta iota delta [gets] in Hrun.
  change (SZ (started env)) with (run_length env) in Hrun.
  destruct (init env V1 (run_length env) (started env)) as [[] sa| |] eqn:Ha;
    try discriminate.
  apply init_returns in Ha as (Ha1 & Hag & HaSZ & Haf & Hab); [|done].
  rewrite bind_unfold in Hrun. rewrite bind_unfold in Hrun.
  cbv beta iota delta [gets] in Hrun. rewrite HaSZ in Hrun.
  change (SZ (started env)) with (run_length env) in Hrun.
  destruct (init env V2 (run_length env) sa) as [[] sb| |] eqn:Hb;
    try discriminate.
  apply init_returns in Hb as (Hb1 & Hbg & HbSZ & Hbf & Hbb); [|done].
  rewrite bind_unfold in Hrun. rewrite bind_unfold in Hrun.
  cbv beta iota delta [gets] in Hrun. rewrite HbSZ, HaSZ in Hrun.
  change (SZ (started env)) with (run_length env) in Hrun.
  destruct (init env V_out (run_length env) sb) as [[] sc| |] eqn:Hc;
    try discriminate.
  apply init_returns in Hc as (Hc1 & Hcg & HcSZ & Hcf & Hcb); [|done].
  injection Hrun as <-.
  change (rand_state (started env)) with rand_seed_default in *.
  assert (E1 : v1 sc = host V1 sa).
  { change (v1 sc) with (host V1 sc). by rewrite (Hcf V1), (Hbf V1). }
  assert (E2 : v2 sc = host V2 sb).
  { change (v2 sc) with (host V2 sc). by rewrite (Hcf V2). }
  assert (E3 : v_out sc = host V_out sc) by reflexivity.
  rewrite Hag in Hb1, Hbb. rewrite Hbg, Hag in Hc1, Hcb.
  split_and!.
  - by rewrite HcSZ, HbSZ, HaSZ.
  - by rewrite E1.
  - by rewrite E2.
  - by rewrite E3.
  - intros Hpos. rewrite E1, E2, E3. auto.
Qed.
End InitResults.

(** C4 (as stated, refuted).  With the C standard's sample generator the
    128th value [init] stores is 99, which is not below 99. *)
Lemma init_stores_99 :
  ~ (forall (i : nat) (x : Z),
       cells_of (host V1 (state_of (init (env_ok 128) V1 128 initial_state))) !! i
         = Some x ->
       0 <= x < 99).
Proof.
  intros H. specialize (H 127%nat 99).
  assert (Hx : 0 <= 99 < 99) by (apply H; vm_compute; reflexivity). lia.
Qed.

(** C4 (amended).  For every length [1 <= size] of type [int], when the
    allocation succeeds and the generator returns non-negative values (as
    [rand] does), [init] returns with [A] holding [size] cells, and every
    stored value [x] satisfies [0 <= x < 100]: the values lie in the closed
    interval from 0 to 99. *)
Theorem init_values_below_100 (env : Env) (A : HostVar) (size : Z) (s : State) :
  (forall g, 0 <= (rand_impl env g).1) ->
  1 <= size < 2 ^ 31 ->
  malloc_ok env (mallocs s) = true ->
  exists s' cells,
    init env A size s = Ret tt s' /\
    host A s' = Block cells /\
    Z.of_nat (length cells) = size /\
    forall (i : nat) (x : Z), cells !! i = Some x -> 0 <= x < 100.
Proof.
  intros Hrand Hsize Hok. eexists _, _. split_and!.
  - apply init_allocated; [lia|done].
  - rewrite host_set_rand_state, host_set_host. reflexivity.
  - rewrite rand_values_length. lia.
  - intros i x Hx. eapply rand_values_range; [exact Hrand|].
    eapply list_elem_of_lookup_2. exact Hx.
Qed.

Lemma rand_c_sample_nonneg g : 0 <= (rand_c_sample g).1.
Proof.
  unfold rand_c_sample. simpl.
  pose proof (Z.mod_pos_bound ((g * 1103515245 + 12345) mod 2 ^ 64 / 65536)
                32768 ltac:(lia)). lia.
Qed.

Lemma init_values_below_100_witness :
  exists s' cells,
    init (env_ok 3) V1 3 initial_state = Ret tt s' /\
    host V1 s' = Block cells /\
    Z.of_nat (length cells) = 3 /\
    forall (i : nat) (x : Z), cells !! i = Some x -> 0 <= x < 100.
Proof.
  apply (init_values_below_100 (env_ok 3) V1 3 initial_state).
  - exact rand_c_sample_nonneg.
  - lia.
  - reflexivity.
Defined.

(** C5 (as stated, refuted).  When the allocation fails and one element is
    asked for, [init] does not leave through [exit]: it stores through the
    null pointer. *)
Lemma init_null_store :
  (exists s', init (env_no_memory 1) V1 1 initial_state = Fault s' /\
              host V1 s' = Null) /\
  ~ (exists c s', init (env_no_memory 1) V1 1 initial_state = Exit c s').
Proof.
  split.
  - eexists. split; vm_compute; reflexivity.
  - intros (c & s' & H). vm_compute in H. discriminate.
Qed.

(** C5 (amended).  [init] does not test the result of its allocation and
    has no path to [exit].  When the allocation fails it leaves [A] null and
    returns normally for a length [size <= 0]; for [1 <= size] its first
    store [A[0]] goes through the null pointer. *)
Theorem init_allocation_unchecked (env : Env) (A : HostVar) (size : Z) (s : State) :
  malloc_ok env (mallocs s) = false ->
  (forall c s', init env A size s <> Exit c s') /\
  (size <= 0 ->
   exists s', init env A size s = Ret tt s' /\ host A s' = Null) /\
  (1 <= size ->
   exists s', init env A size s = Fault s' /\ host A s' = Null).
Proof.
  intros Hok. rewrite init_null by done.
  destruct (Z.ltb_spec 0 size) as [Hpos|Hneg]; split_and!.
  - intros c s' H. discriminate.
  - intros H. lia.
  - intros _. eexists. split; [reflexivity|].
    rewrite host_set_rand_state, host_set_host. reflexivity.
  - intros c s' H. discriminate.
  - intros _. eexists. split; [reflexivity|]. apply host_set_host.
  - intros H. lia.
Qed.

Lemma init_allocation_unchecked_witness :
  malloc_ok (env_no_memory 2) (mallocs initial_state) = false /\
  exists s', init (env_no_memory 2) V2 2 initial_state = Fault s' /\
             host V2 s' = Null.
Proof.
  split; [reflexivity|].
  apply (init_allocation_unchecked (env_no_memory 2) V2 2 initial_state);
    [reflexivity | lia].
Defined.

(** C6.  With [PRINT] set to 1, [print] on an array of [n] cells returns
    and adds to the output, in this order: for [n <= 15] the [n] elements;
    for [15 < n] the first five elements, the marker [" ..... "] and the
    last five elements; and in both cases, last, a newline and the line of
    dashes with its newline.  Nothing else of the state changes. *)
Theorem print_output (A : HostVar) (cells : list Z) (s : State) :
  host A s = Block cells ->
  let n := Z.of_nat (length cells) in
  exists out,
    print A n s = Ret tt (set_trace (trace s ++ out) s) /\
    (n <= 15 -> out = map shown cells ++ [separator]) /\
    (15 < n ->
     out = map shown (take 5 cells) ++ [EvStdout " ..... "] ++
           map shown (drop (length cells - 5) cells) ++ [separator]) /\
    last out = Some separator /\
    PRINT = 1.
Proof.
  intros Hhost n. exists (print_events cells). split_and!.
  - by apply print_block.
  - intros Hn. unfold print_events.
    destruct (Z.ltb_spec 15 (Z.of_nat (length cells))); [lia|done].
  - intros Hn. unfold print_events.
    destruct (Z.ltb_spec 15 (Z.of_nat (length cells))); [|lia].
    by rewrite <- !app_assoc.
  - unfold print_events. apply last_snoc.
  - reflexivity.
Qed.

Lemma print_output_witness :
  exists out,
    print V1 20 (set_v1 (Block (map Z.of_nat (seq 1 20))) initial_state) =
      Ret tt (set_trace (trace initial_state ++ out)
                (set_v1 (Block (map Z.of_nat (seq 1 20))) initial_state)) /\
    stdout_text out =
      "1 2 3 4 5  ..... 16 17 18 19 20 " +:+ nl +:+
      "----------------------------" +:+ nl.
Proof.
  destruct (print_output V1 (map Z.of_nat (seq 1 20))
              (set_v1 (Block (map Z.of_nat (seq 1 20))) initial_state)
              eq_refl) as (out & Hrun & _ & Hbig & _).
  exists out. split; [exact Hrun|].
  rewrite Hbig by (vm_compute; reflexivity). vm_compute. reflexivity.
Defined.

(** C10.  No statement of the program seeds the generator: the first call
    of [rand] finds it in the state the C standard gives an unseeded
    generator, and only [rand] moves it.  So the values the three calls of
    [init] store are a function of the generator and the vector length
    alone: two runs on the same libc with the same argument store the same
    values into [v1], [v2] and [v_out], whatever else their environments
    answer. *)
Theorem init_same_across_runs (e1 e2 : Env) (s1 s2 : State) :
  rand_impl e1 = rand_impl e2 ->
  argv1 e1 = argv1 e2 ->
  main_prefix e1 4 = Ret tt s1 ->
  main_prefix e2 4 = Ret tt s2 ->
  SZ s1 = SZ s2 /\
  stored (SZ s1) (v1 s1) = stored (SZ s2) (v1 s2) /\
  stored (SZ s1) (v2 s1) = stored (SZ s2) (v2 s2) /\
  stored (SZ s1) (v_out s1) = stored (SZ s2) (v_out s2) /\
  stored (SZ s1) (v1 s1) =
    rand_values (rand_impl e1) (Z.to_nat (SZ s1)) rand_seed_default.
Proof.
  intros Hgen Hargv H1 H2.
  apply main_inits in H1 as (HSZ1 & Ha1 & Hb1 & Hc1 & _).
  apply main_inits in H2 as (HSZ2 & Ha2 & Hb2 & Hc2 & _).
  assert (Hlen : run_length e1 = run_length e2).
  { unfold run_length. by rewrite Hargv. }
  rewrite HSZ1, HSZ2, Ha1, Ha2, Hb1, Hb2, Hc1, Hc2, <- Hlen, <- Hgen.
  done.
Qed.

Lemma init_same_across_runs_witness :
  exists s1 s2,
    main_prefix (env_ok 4) 4 = Ret tt s1 /\
    main_prefix (env_read_fails 4) 4 = Ret tt s2 /\
    stored (SZ s1) (v_out s1) = stored (SZ s2) (v_out s2) /\
    v1 s1 = Block [38; 58; 13; 15].
Proof.
  eexists _, _.
  assert (H1 : main_prefix (env_ok 4) 4
               = Ret tt (state_of (main_prefix (env_ok 4) 4)))
    by (vm_compute; reflexivity).
  assert (H2 : main_prefix (env_read_fails 4) 4
               = Ret tt (state_of (main_prefix (env_read_fails 4) 4)))
    by (vm_compute; reflexivity).
  split; [exact H1|]. split; [exact H2|]. split.
  - apply (init_same_across_runs (env_ok 4) (env_read_fails 4) _ _
             eq_refl eq_refl H1 H2).
  - vm_compute. reflexivity.
Defined.

(** ** Properties kept by every step *)

Section Preserves.
Context (P : State -> Prop).

Lemma preserves_ret {A} (a : A) : preserves P (mret a).
Proof. intros s H. exact H. Qed.

Lemma preserves_gets {A} (f : State -> A) : preserves P (gets f).
Proof. intros s H. exact H. Qed.

Lemma preserves_exit {A} c : preserves P (@exit A c).
Proof. intros s H. exact H. Qed.

Lemma preserves_fault {A} : preserves P (@fault A).
Proof. intros s H. exact H. Qed.

Lemma preserves_modify f : stable P f -> preserves P (modify f).
Proof. intros Hf s H. apply Hf, H. Qed.

Lemma preserves_emit e :
  stable P (fun s => set_trace (trace s ++ [e]) s) -> preserves P (emit e).
Proof. apply preserves_modify. Qed.

Lemma preserves_bind {A B} (m : M A) (f : A -> M B) :
  preserves P m -> (forall a, preserves P (f a)) -> preserves P (m ≫= f).
Proof.
  intros Hm Hf s H. rewrite bind_unfold. specialize (Hm s H).
  destruct (m s); simpl in *; auto. by apply Hf.
Qed.

Lemma preserves_for_loop n : forall i body,
  (forall j, preserves P (body j)) -> preserves P (for_loop n i body).
Proof.
  induction n as [|n IH]; intros i body Hbody; simpl.
  - apply preserves_ret.
  - apply preserves_bind; [apply Hbody|]. intros _. by apply IH.
Qed.

Lemma preserves_for_range lo hi body :
  (forall j, preserves P (body j)) -> preserves P (for_range lo hi body).
Proof. apply preserves_for_loop. Qed.

Lemma preserves_sequence (l : list (M unit)) :
  Forall (preserves P) l -> preserves P (sequence_ l).
Proof.
  induction 1 as [|m l Hm Hl IH]; simpl.
  - apply preserves_ret.
  - apply preserves_bind; [exact Hm|]. intros _. exact IH.
Qed.
End Preserves.

Lemma no_exit_bind {A B} (m : M A) (f : A -> M B) :
  no_exit m -> (forall a, no_exit (f a)) -> no_exit (m ≫= f).
Proof.
  intros Hm Hf s c s'. rewrite bind_unfold.
  destruct (m s) eqn:Hms; [apply Hf| by apply Hm in Hms | done].
Qed.

Lemma no_exit_for_loop n : forall i body,
  (forall j, no_exit (body j)) -> no_exit (for_loop n i body).
Proof.
  induction n as [|n IH]; intros i body Hbody; simpl.
  - done.
  - apply no_exit_bind; [apply Hbody|]. intros _. by apply IH.
Qed.

Lemma no_exit_sequence (l : list (M unit)) :
  Forall no_exit l -> no_exit (sequence_ l).
Proof.
  induction 1 as [|m l Hm Hl IH]; simpl; [done|].
  apply no_exit_bind; [exact Hm|]. intros _. exact IH.
Qed.

(** Takes a goal [preserves P m] apart along the structure of [m]; what is
    left are the primitive steps. *)
Ltac preserves_structure :=
  repeat match goal with
    | |- preserves _ (mret _) => apply preserves_ret
    | |- preserves _ (gets _) => apply preserves_gets
    | |- preserves _ (exit _) => apply preserves_exit
    | |- preserves _ fault => apply preserves_fault
    | |- preserves _ (_ ≫= _) => apply preserves_bind; [|intros ?]
    | |- preserves _ (for_range _ _ _) => apply preserves_for_range; intros ?
    | |- preserves _ (modify _) => apply preserves_modify
    | |- preserves _ (emit _) => apply preserves_emit
    | |- preserves _ (if ?c then _ else _) => destruct c
    | |- preserves _ (match ?x with _ => _ end) => destruct x
    end.

Ltac no_exit_structure :=
  repeat match goal with
    | |- no_exit (_ ≫= _) => apply no_exit_bind; [|intros ?]
    | |- no_exit (for_range _ _ _) => apply no_exit_for_loop; intros ?
    | |- no_exit (if ?c then _ else _) => destruct c
    | |- no_exit (match ?x with _ => _ end) => destruct x
    end.

(** ** Before the device is set up *)

Section HostPhase.
Context (env : Env).

Lemma host_only_set_host A p : stable host_only (set_host A p).
Proof. intros s H. destruct A; exact H. Qed.

Lemma host_only_stdout t :
  stable host_only (fun s => set_trace (trace s ++ [EvStdout t]) s).
Proof.
  intros s (Hb & Hc & Ht). split_and!; [done..|].
  cbn. rewrite forallb_app, Ht. reflexivity.
Qed.

Lemma host_only_malloc bytes : preserves host_only (malloc env bytes).
Proof. intros s H. unfold malloc. by destruct (malloc_ok env (mallocs s)). Qed.

Lemma host_only_rand : preserves host_only (rand env).
Proof. intros s H. unfold rand. by destruct (rand_impl env (rand_state s)). Qed.

Lemma host_only_store A i v : preserves host_only (store A i v).
Proof.
  intros s H. unfold store. repeat case_match; try done.
  by apply host_only_set_host.
Qed.

Lemma host_only_load A i : preserves host_only (load A i).
Proof. intros s H. unfold load. by repeat case_match. Qed.

Lemma host_only_init A size : preserves host_only (init env A size).
Proof.
  unfold init. preserves_structure;
    auto using host_only_malloc, host_only_rand, host_only_store,
      host_only_set_host.
Qed.

Lemma host_only_print A size : preserves host_only (print A size).
Proof.
  unfold print, printf_d, printf. preserves_structure;
    auto using host_only_load, host_only_stdout.
Qed.

Lemma no_exit_init A size : no_exit (init env A size).
Proof.
  unfold init. no_exit_structure; intros s c s'.
  - unfold malloc. by destruct (malloc_ok env (mallocs s)).
  - done.
  - unfold rand. by destruct (rand_impl env (rand_state s)).
  - unfold store. by repeat case_match.
Qed.

Lemma no_exit_print A size : no_exit (print A size).
Proof.
  unfold print, printf_d, printf. no_exit_structure; intros s c s';
    try done; unfold load; by repeat case_match.
Qed.

Lemma host_phase_host_only : preserves host_only (host_phase env).
Proof.
  apply preserves_sequence. unfold main_body. cbn [take].
  repeat apply Forall_cons_2; try apply Forall_nil_2.
  - destruct (argv1 env); preserves_structure. by intros s H.
  - preserves_structure. apply host_only_init.
  - preserves_structure. apply host_only_init.
  - preserves_structure. apply host_only_init.
  - preserves_structure. apply host_only_print.
  - preserves_structure. apply host_only_print.
Qed.

Lemma host_phase_no_exit : no_exit (host_phase env).
Proof.
  apply no_exit_sequence. unfold main_body. cbn [take].
  repeat apply Forall_cons_2; try apply Forall_nil_2.
  - by destruct (argv1 env).
  - no_exit_structure; [done|apply no_exit_init].
  - no_exit_structure; [done|apply no_exit_init].
  - no_exit_structure; [done|apply no_exit_init].
  - no_exit_structure; [done|apply no_exit_print].
  - no_exit_structure; [done|apply no_exit_print].
Qed.

Lemma host_only_initial : host_only initial_state.
Proof. done. Qed.
End HostPhase.

(** ** A kernel source file that cannot be opened *)

Lemma forallb_elem_of {A} (f : A -> bool) (l : list A) (x : A) :
  forallb f l = true -> x ∈ l -> f x = true.
Proof.
  intros Hall Hin. rewrite forallb_forall in Hall.
  apply Hall. by apply list_elem_of_In.
Qed.

Lemma stdout_is_no_create_buffer (tr : list Event) :
  forallb is_stdout tr = true ->
  forallb (fun e => negb (is_create_buffer e)) tr = true.
Proof.
  intros H. apply forallb_forall. intros e He.
  rewrite forallb_forall in H. specialize (H e He). by destruct e.
Qed.

Lemma stdout_is_no_fopen (tr : list Event) (path : string) :
  forallb is_stdout tr = true -> EvFopen path ∉ tr.
Proof.
  intros H Hin. by pose proof (forallb_elem_of _ _ _ H Hin).
Qed.

(** Refutes a hypothesis [x ∈ [e1; ...; en]] whose [x] is none of the
    listed constructors. *)
Ltac not_in_list H :=
  repeat (apply elem_of_cons in H as [H|H]; [discriminate H|]);
  by apply not_elem_of_nil in H.

(** Proves [x ∈ l] for closed [x] and [l]. *)
Ltac in_list :=
  apply list_elem_of_In; vm_compute;
  repeat first [left; reflexivity | right].

Section NoFile.
Context (env : Env).
Hypothesis Hfile : fopen_ok env = false.

(** Every way through the device set-up ends in [exit(1)] at the latest
    where the file is opened, and logs no buffer creation. *)
Lemma setup_without_file s :
  exists evs,
    setup_openCL_device_context_queue_kernel env kernel_file kernel_name s =
      Exit 1 (set_trace (trace s ++ evs) s) /\
    forallb (fun e => negb (is_create_buffer e)) evs = true /\
    (EvFopen kernel_file ∈ evs ->
     last evs = Some (EvStderr "Couldn't find the program file")).
Proof.
  unfold setup_openCL_device_context_queue_kernel, create_device, build_program.
  munfold. rewrite Hfile.
  destruct (st_GetPlatformIDs env <? 0);
    [|destruct (st_GetDeviceIDs env CL_DEVICE_TYPE_GPU =? CL_DEVICE_NOT_FOUND);
      [destruct (st_GetDeviceIDs env CL_DEVICE_TYPE_CPU <? 0)
      |destruct (st_GetDeviceIDs env CL_DEVICE_TYPE_GPU <? 0)];
      [|destruct (st_CreateContext env <? 0)| |destruct (st_CreateContext env <? 0)]];
    cbn; rewrite ?set_trace_twice, <- ?app_assoc; cbn;
    (eexists; split; [reflexivity|]; split; [reflexivity|]);
    intros Hin; first [reflexivity | not_in_list Hin].
Qed.

Lemma main_body_split :
  main_body env =
  take 6 (main_body env) ++
  [setup_openCL_device_context_queue_kernel env kernel_file kernel_name] ++
  drop 7 (main_body env).
Proof. reflexivity. Qed.

Lemma main_without_file :
  (exists s6 evs,
      host_only s6 /\
      main env = Exit 1 (set_trace (trace s6 ++ evs) s6) /\
      forallb (fun e => negb (is_create_buffer e)) evs = true /\
      (EvFopen kernel_file ∈ evs ->
       last evs = Some (EvStderr "Couldn't find the program file"))) \/
  (exists s, host_only s /\ main env = Fault s).
Proof.
  unfold main. rewrite bind_unfold, main_body_split, sequence_app.
  fold (host_phase env).
  pose proof (host_phase_host_only env initial_state host_only_initial) as Hinv.
  destruct (host_phase env initial_state) as [[] s6|c s|s] eqn:Hrun.
  - left. simpl in Hinv.
    destruct (setup_without_file s6) as (evs & Hsetup & Hevs & Hlast).
    exists s6, evs. split; [done|]. split; [|done].
    cbn [app sequence_ foldr]. rewrite bind_unfold, Hsetup. reflexivity.
  - by apply host_phase_no_exit in Hrun.
  - right. exists s. done.
Qed.
End NoFile.

(** C8.  When the kernel source file cannot be opened, no run of [main]
    asks for a device buffer: its trace holds no [clCreateBuffer].  The run
    does not return; it leaves through [exit(1)], unless a failed host
    allocation ended it in [init] before the device was set up.  Whenever
    the open was attempted, the run is an [exit(1)] whose last action is
    the message about the missing file. *)
Theorem no_buffer_without_kernel_source (env : Env) :
  fopen_ok env = false ->
  (forall bytes, EvCreateBuffer bytes ∉ trace (state_of (main env))) /\
  ((exists s, main env = Exit 1 s) \/
   (exists s, main env = Fault s /\ EvFopen kernel_file ∉ trace s)) /\
  (EvFopen kernel_file ∈ trace (state_of (main env)) ->
   exists s, main env = Exit 1 s /\
             last (trace s) = Some (EvStderr "Couldn't find the program file")).
Proof.
  intros Hfile.
  destruct (main_without_file env Hfile)
    as [(s6 & evs & (_ & _ & Hout) & Hrun & Hevs & Hlast)|(s & (_ & _ & Hout) & Hrun)];
    rewrite Hrun; cbn [state_of]; split_and!.
  - intros bytes Hin. cbn in Hin. apply elem_of_app in Hin as [Hin|Hin].
    + apply stdout_is_no_create_buffer in Hout.
      by pose proof (forallb_elem_of _ _ _ Hout Hin).
    + by pose proof (forallb_elem_of _ _ _ Hevs Hin).
  - left. eauto.
  - intros Hin. cbn in Hin. apply elem_of_app in Hin as [Hin|Hin].
    + by apply (stdout_is_no_fopen _ _ Hout) in Hin.
    + eexists. split; [reflexivity|]. cbn.
      specialize (Hlast Hin). destruct evs as [|e evs]; [done|].
      by rewrite last_app_cons.
  - intros bytes Hin. apply stdout_is_no_create_buffer in Hout.
    by pose proof (forallb_elem_of _ _ _ Hout Hin).
  - right. exists s. split; [done|]. by apply stdout_is_no_fopen.
  - intros Hin. by apply (stdout_is_no_fopen _ _ Hout) in Hin.
Qed.

Lemma no_buffer_without_kernel_source_witness :
  fopen_ok (env_no_file 3) = false /\
  (forall bytes,
      EvCreateBuffer bytes ∉ trace (state_of (main (env_no_file 3)))) /\
  exists s, main (env_no_file 3) = Exit 1 s.
Proof.
  split; [reflexivity|].
  pose proof (no_buffer_without_kernel_source (env_no_file 3) eq_refl)
    as (Hnone & _ & Hexit).
  split; [exact Hnone|].
  destruct Hexit as (s & Hs & _); [|by exists s].
  in_list.
Defined.

(** ** The size of the device buffers *)

Section BufferSizes.
Context (env : Env).

(** A step that leaves [SZ] alone, gives no buffer a new size and logs no
    creation keeps [sized env]. *)
Lemma sized_step s s' :
  SZ s' = SZ s ->
  (forall h b', buffers s' !! h = Some b' ->
                exists b, buffers s !! h = Some b /\ buf_bytes b' = buf_bytes b) ->
  (forall bytes, EvCreateBuffer bytes ∈ trace s' -> EvCreateBuffer bytes ∈ trace s) ->
  sized env s -> sized env s'.
Proof.
  intros HSZ Hbuf Htr (H1 & H2 & H3). split_and!.
  - congruence.
  - intros h b' Hb'. destruct (Hbuf h b' Hb') as (b & Hb & ->).
    rewrite HSZ. by eapply H2.
  - intros bytes Hin. rewrite HSZ. by apply H3, Htr.
Qed.

Lemma sized_set_host A p : stable (sized env) (set_host A p).
Proof. intros s H. destruct A; exact H. Qed.

Lemma sized_set_bufvar B h : stable (sized env) (set_bufvar B h).
Proof. intros s H. destruct B; exact H. Qed.

Lemma sized_set_err e : stable (sized env) (set_err e).
Proof. intros s H. exact H. Qed.

Lemma sized_event e :
  is_create_buffer e = false ->
  stable (sized env) (fun s => set_trace (trace s ++ [e]) s).
Proof.
  intros He s. apply sized_step; cbn; [done|eauto|].
  intros bytes Hin. apply elem_of_app in Hin as [Hin|Hin]; [done|].
  apply list_elem_of_singleton in Hin. by subst e.
Qed.

Lemma sized_malloc bytes : preserves (sized env) (malloc env bytes).
Proof. intros s H. unfold malloc. by destruct (malloc_ok env (mallocs s)). Qed.

Lemma sized_rand : preserves (sized env) (rand env).
Proof. intros s H. unfold rand. by destruct (rand_impl env (rand_state s)). Qed.

Lemma sized_store A i v : preserves (sized env) (store A i v).
Proof.
  intros s H. unfold store. repeat case_match; try done.
  by apply sized_set_host.
Qed.

Lemma sized_load A i : preserves (sized env) (load A i).
Proof. intros s H. unfold load. by repeat case_match. Qed.

Lemma sized_free A : preserves (sized env) (free A).
Proof.
  intros s H. unfold free. repeat case_match; try done.
  by apply sized_set_host.
Qed.

(** The creation of a buffer of [SZ * sizeof(int)] bytes. *)
Lemma sized_create {A} (rest : option nat -> M A) :
  (forall b, preserves (sized env) (rest b)) ->
  preserves (sized env)
    (sz ← gets SZ; b ← clCreateBuffer env (size_bytes sz); rest b).
Proof.
  intros Hrest s (H1 & H2 & H3). rewrite bind_unfold. cbv beta iota delta [gets].
  rewrite bind_unfold. unfold clCreateBuffer. cbv zeta.
  destruct (CreateBuffer_ok env (created s)); apply Hrest; split_and!; cbn.
  - done.
  - intros h b Hb. rewrite lookup_insert in Hb. case_decide.
    + by simplify_eq.
    + by eapply H2.
  - intros bytes Hin. apply elem_of_app in Hin as [Hin|Hin]; [by apply H3|].
    apply list_elem_of_singleton in Hin. by simplify_eq.
  - done.
  - done.
  - intros bytes Hin. apply elem_of_app in Hin as [Hin|Hin]; [by apply H3|].
    apply list_elem_of_singleton in Hin. by simplify_eq.
Qed.

Ltac sized_by_step :=
  let Hb := fresh "Hb" in
  let Hin := fresh "Hin" in
  match goal with
  | H : sized env ?s |- sized env _ =>
      cbn in *; revert H; apply sized_step; cbn;
      [ reflexivity
      | intros ? ? Hb;
        try (rewrite lookup_insert in Hb; case_decide; simplify_eq);
        try (apply lookup_delete_Some in Hb as [_ Hb]);
        eauto
      | intros ? Hin;
        try (apply elem_of_app in Hin as [Hin|Hin];
             [|apply list_elem_of_singleton in Hin; discriminate Hin]);
        done ]
  end.

Lemma sized_write buf bytes src :
  preserves (sized env) (clEnqueueWriteBuffer env buf bytes src).
Proof.
  intros s H. unfold clEnqueueWriteBuffer. cbv zeta.
  repeat case_match; cbn [state_of]; sized_by_step.
Qed.

Lemma sized_set_arg index v : preserves (sized env) (clSetKernelArg env index v).
Proof.
  intros s H. unfold clSetKernelArg. cbv zeta.
  repeat case_match; cbn [state_of]; sized_by_step.
Qed.

Lemma sized_run_kernel global : stable (sized env) (run_kernel global).
Proof.
  intros s H. unfold run_kernel. repeat case_match; try done; sized_by_step.
Qed.

Lemma sized_dispatch global :
  preserves (sized env) (clEnqueueNDRangeKernel env global).
Proof.
  intros s H. unfold clEnqueueNDRangeKernel. cbv zeta.
  assert (Hlogged :
    sized env (set_trace (trace s ++ [EvEnqueueNDRangeKernel global]) s))
    by (by apply (sized_event (EvEnqueueNDRangeKernel global))).
  case_match; cbn [state_of]; [by apply sized_run_kernel|done].
Qed.

Lemma sized_read buf bytes A :
  preserves (sized env) (clEnqueueReadBuffer env buf bytes A).
Proof.
  intros s H. unfold clEnqueueReadBuffer. cbv zeta.
  assert (Hlogged :
    sized env (set_trace (trace s ++ [EvEnqueueReadBuffer buf bytes]) s))
    by (by apply (sized_event (EvEnqueueReadBuffer buf bytes))).
  repeat case_match; cbn [state_of]; try done. by apply sized_set_host.
Qed.

Lemma sized_release buf : preserves (sized env) (clReleaseMemObject buf).
Proof.
  intros s H. unfold clReleaseMemObject. cbv zeta.
  repeat case_match; cbn [state_of]; sized_by_step.
Qed.

Lemma sized_init A size : preserves (sized env) (init env A size).
Proof.
  unfold init. preserves_structure;
    auto using sized_malloc, sized_rand, sized_store, sized_set_host.
Qed.

Lemma sized_print A size : preserves (sized env) (print A size).
Proof.
  unfold print, printf_d, printf. preserves_structure;
    auto using sized_load, sized_event.
Qed.

Lemma sized_setup file name :
  preserves (sized env) (setup_openCL_device_context_queue_kernel env file name).
Proof.
  unfold setup_openCL_device_context_queue_kernel, create_device,
    build_program, clGetPlatformIDs, clGetDeviceIDs, clCreateContext,
    clCreateProgramWithSource, clBuildProgram, clGetProgramBuildInfo,
    clCreateCommandQueueWithProperties, clCreateKernel, fopen, perror, printf.
  preserves_structure; auto using sized_malloc, sized_event, sized_set_err.
Qed.

Lemma sized_setup_kernel_memory : preserves (sized env) (setup_kernel_memory env).
Proof.
  unfold setup_kernel_memory, perror.
  apply sized_create. intros b1. apply preserves_bind; [|intros _].
  { apply preserves_modify. exact (sized_set_bufvar BufV1 _). }
  apply sized_create. intros b2. apply preserves_bind; [|intros _].
  { apply preserves_modify. exact (sized_set_bufvar BufV2 _). }
  apply sized_create. intros b3. apply preserves_bind; [|intros _].
  { apply preserves_modify. exact (sized_set_bufvar BufV_out _). }
  preserves_structure; auto using sized_event, sized_write.
Qed.

Lemma sized_copy_kernel_args : preserves (sized env) (copy_kernel_args env).
Proof.
  unfold copy_kernel_args, perror, printf.
  preserves_structure; auto using sized_event, sized_set_arg.
Qed.

Lemma sized_free_memory : preserves (sized env) free_memory.
Proof.
  unfold free_memory.
  preserves_structure; auto using sized_event, sized_release, sized_free.
Qed.

Lemma sized_started : sized env (started env).
Proof.
  split_and!; [done|intros h b Hb|intros bytes Hin]; cbn in *.
  - by rewrite lookup_empty in Hb.
  - by apply not_elem_of_nil in Hin.
Qed.

Lemma sized_after_start :
  Forall (preserves (sized env)) (drop 1 (main_body env)).
Proof.
  unfold main_body. cbn [drop].
  repeat apply Forall_cons_2; try apply Forall_nil_2;
    unfold now, clWaitForEvents;
    preserves_structure;
    auto using sized_init, sized_print, sized_setup,
      sized_setup_kernel_memory, sized_copy_kernel_args, sized_event,
      sized_dispatch, sized_read, sized_free_memory.
Qed.

Lemma sized_main_prefix k : sized env (state_of (main_prefix env (S k))).
Proof.
  rewrite main_prefix_S. apply preserves_sequence; [|apply sized_started].
  apply Forall_take, sized_after_start.
Qed.
End BufferSizes.

(** C9.  At every point between two statements of [main] (after the first
    [k] statements, for every [k], whether the run got there by returning,
    exiting or faulting): every [clCreateBuffer] the run has made asked for
    exactly [SZ * sizeof(int)] bytes, and every buffer in device memory
    still has exactly that size.  [SZ] itself is the length the run started
    with, and for a length that is not negative the size is four times the
    length.  None of the operations on a buffer (upload, argument bind,
    dispatch, read-back, release), with whatever arguments, changes a
    size. *)
Theorem buffer_size_invariant (env : Env) (k : nat) :
  let s := state_of (main_prefix env k) in
  (forall bytes, EvCreateBuffer bytes ∈ trace s -> bytes = size_bytes (SZ s)) /\
  (forall h b, buffers s !! h = Some b -> buf_bytes b = size_bytes (SZ s)) /\
  (forall B h, bufvar B s = Some h -> forall b, buffers s !! h = Some b ->
               buf_bytes b = size_bytes (SZ s)) /\
  ((0 < k)%nat -> SZ s = run_length env) /\
  (0 <= SZ s -> size_bytes (SZ s) = SZ s * sizeof_int) /\
  (forall buf bytes src,
      preserves (sized env) (clEnqueueWriteBuffer env buf bytes src)) /\
  (forall index v, preserves (sized env) (clSetKernelArg env index v)) /\
  (forall global, preserves (sized env) (clEnqueueNDRangeKernel env global)) /\
  (forall buf bytes A,
      preserves (sized env) (clEnqueueReadBuffer env buf bytes A)) /\
  (forall buf, preserves (sized env) (clReleaseMemObject buf)).
Proof.
  assert (Hops :
    (forall buf bytes src,
        preserves (sized env) (clEnqueueWriteBuffer env buf bytes src)) /\
    (forall index v, preserves (sized env) (clSetKernelArg env index v)) /\
    (forall global, preserves (sized env) (clEnqueueNDRangeKernel env global)) /\
    (forall buf bytes A,
        preserves (sized env) (clEnqueueReadBuffer env buf bytes A)) /\
    (forall buf, preserves (sized env) (clReleaseMemObject buf))).
  { split_and!; intros.
    - apply sized_write.
    - apply sized_set_arg.
    - apply sized_dispatch.
    - apply sized_read.
    - apply sized_release. }
  destruct k as [|k]; cbn zeta.
  - change (state_of (main_prefix env 0)) with initial_state.
    split; [|split; [|split; [|split; [|split; [|exact Hops]]]]].
    + intros bytes Hin. by apply not_elem_of_nil in Hin.
    + intros h b Hb. cbn in Hb. by rewrite lookup_empty in Hb.
    + intros B h _ b Hb. cbn in Hb. by rewrite lookup_empty in Hb.
    + lia.
    + intros _. reflexivity.
  - destruct (sized_main_prefix env k) as (HSZ & Hbuf & Hcreate).
    split; [|split; [|split; [|split; [|split; [|exact Hops]]]]].
    + exact Hcreate.
    + exact Hbuf.
    + intros B h _ b Hb. by eapply Hbuf.
    + intros _. exact HSZ.
    + intros Hpos. pose proof (run_length_range env).
      rewrite size_bytes_nonneg by lia. unfold sizeof_int. lia.
Qed.

(** In the run [env_ok 3], after the read-back, the three handles name
    three buffers of twelve bytes. *)
Example three_buffers_of_12_bytes :
  let s := state_of (main_prefix (env_ok 3) 13) in
  buf_bytes <$> (bufV1 s ≫= fun h => buffers s !! h) = Some 12 /\
  buf_bytes <$> (bufV2 s ≫= fun h => buffers s !! h) = Some 12 /\
  buf_bytes <$> (bufV_out s ≫= fun h => buffers s !! h) = Some 12 /\
  size_bytes (SZ s) = 12.
Proof. vm_compute. done. Qed.

(** ** The kernel over the whole index range *)

Lemma vector_add_ocl_step (a b out : list Z) (k : nat) x y :
  a !! k = Some x -> b !! k = Some y ->
  vector_add_ocl a b out k = <[k := wrap_int (x + y)]> out.
Proof. intros Ha Hb. unfold vector_add_ocl. by rewrite Ha, Hb. Qed.

Lemma nd_range_prefix (a b : list Z) : forall (k : nat) (out : list Z),
  (k <= length a)%nat -> (k <= length b)%nat -> (k <= length out)%nat ->
  foldl (vector_add_ocl a b) out (seq 0 k) =
  take k (zip_with sum_int a b) ++ drop k out.
Proof.
  induction k as [|k IH]; intros out Ha Hb Ho.
  - by rewrite drop_0.
  - rewrite seq_S, foldl_app, IH by lia. simpl.
    destruct (lookup_lt_is_Some_2 a k ltac:(lia)) as [x Hx].
    destruct (lookup_lt_is_Some_2 b k ltac:(lia)) as [y Hy].
    destruct (lookup_lt_is_Some_2 out k ltac:(lia)) as [o Hox].
    rewrite (vector_add_ocl_step _ _ _ _ x y Hx Hy).
    assert (Hlen : length (take k (zip_with sum_int a b)) = k).
    { rewrite length_take, length_zip_with. lia. }
    rewrite insert_app_r_alt by lia. rewrite Hlen, Nat.sub_diag.
    rewrite (drop_S _ _ _ Hox). simpl.
    rewrite (take_S_r _ _ (sum_int x y)).
    + by rewrite <- app_assoc.
    + rewrite lookup_zip_with, Hx, Hy. reflexivity.
Qed.

Lemma nd_range_all (a b out : list Z) :
  length b = length a -> length out = length a ->
  nd_range (Z.of_nat (length a)) a b out = zip_with sum_int a b.
Proof.
  intros Hb Ho. unfold nd_range. rewrite Nat2Z.id.
  rewrite nd_range_prefix by lia.
  rewrite take_ge by (rewrite length_zip_with; lia).
  rewrite drop_ge by lia. apply app_nil_r.
Qed.

(** ** What the host statements leave alone *)

Ltac frame_prim :=
  let s := fresh "s" in
  let H := fresh "H" in
  intros s H;
  cbv beta delta [malloc rand store load free];
  repeat case_match;
  try match goal with A : HostVar |- _ => destruct A end;
  exact H.

Section Frames.
Context (env : Env).

Lemma device_view_init x A size :
  preserves (fun s => device_view s = x) (init env A size).
Proof.
  unfold init. preserves_structure; try frame_prim.
  all: intros s H; destruct A; exact H.
Qed.

Lemma device_view_print x A size :
  preserves (fun s => device_view s = x) (print A size).
Proof.
  unfold print, printf_d, printf. preserves_structure; try frame_prim.
  all: intros s H; exact H.
Qed.

Lemma device_view_setup x file name :
  preserves (fun s => device_view s = x)
    (setup_openCL_device_context_queue_kernel env file name).
Proof.
  unfold setup_openCL_device_context_queue_kernel, create_device,
    build_program, clGetPlatformIDs, clGetDeviceIDs, clCreateContext,
    clCreateProgramWithSource, clBuildProgram, clGetProgramBuildInfo,
    clCreateCommandQueueWithProperties, clCreateKernel, fopen, perror, printf.
  preserves_structure; try frame_prim.
  all: intros s H; exact H.
Qed.

Lemma host_view_print x A size :
  preserves (fun s => host_view s = x) (print A size).
Proof.
  unfold print, printf_d, printf. preserves_structure; try frame_prim.
  all: intros s H; exact H.
Qed.

Lemma host_view_setup x file name :
  preserves (fun s => host_view s = x)
    (setup_openCL_device_context_queue_kernel env file name).
Proof.
  unfold setup_openCL_device_context_queue_kernel, create_device,
    build_program, clGetPlatformIDs, clGetDeviceIDs, clCreateContext,
    clCreateProgramWithSource, clBuildProgram, clGetProgramBuildInfo,
    clCreateCommandQueueWithProperties, clCreateKernel, fopen, perror, printf.
  preserves_structure; try frame_prim.
  all: intros s H; exact H.
Qed.

Lemma device_view_host_steps x :
  Forall (preserves (fun s => device_view s = x)) (take 6 (drop 1 (main_body env))).
Proof.
  unfold main_body. cbn [take drop].
  repeat apply Forall_cons_2; try apply Forall_nil_2; preserves_structure;
    auto using device_view_init, device_view_print, device_view_setup.
Qed.

Lemma host_view_late_steps x :
  Forall (preserves (fun s => host_view s = x)) (take 3 (drop 4 (main_body env))).
Proof.
  unfold main_body. cbn [take drop].
  repeat apply Forall_cons_2; try apply Forall_nil_2; preserves_structure;
    auto using host_view_print, host_view_setup.
Qed.

(** The process when the device has been set up, in a run of positive
    length that gets there. *)
Lemma before_buffers s7 :
  0 < run_length env ->
  main_prefix env 7 = Ret tt s7 ->
  let n := Z.to_nat (run_length env) in
  let step := rand_impl env in
  let g1 := rand_after step n rand_seed_default in
  let g2 := rand_after step n g1 in
  device_view s7 = (run_length env, ∅, 0%nat, 0%nat, ∅) /\
  host_view s7 = (Block (rand_values step n rand_seed_default),
                  Block (rand_values step n g1),
                  Block (rand_values step n g2)).
Proof.
  intros Hpos Hrun n step g1 g2. split.
  - pose proof (preserves_sequence _ _
                  (device_view_host_steps (run_length env, ∅, 0%nat, 0%nat, ∅))
                  (started env) eq_refl) as H.
    rewrite <- main_prefix_S, Hrun in H. exact H.
  - rewrite main_prefix_S in Hrun.
    change (take 6 (drop 1 (main_body env)))
      with (take 3 (drop 1 (main_body env)) ++ take 3 (drop 4 (main_body env)))
      in Hrun.
    rewrite sequence_app, <- main_prefix_S in Hrun.
    destruct (main_prefix env 4) as [[] s4| |] eqn:H4; try discriminate.
    apply main_inits in H4 as (_ & _ & _ & _ & Hblocks).
    destruct (Hblocks Hpos) as (E1 & E2 & E3).
    pose proof (preserves_sequence _ _ (host_view_late_steps (host_view s4)) s4 eq_refl) as H.
    rewrite Hrun in H. cbn [state_of] in H. rewrite H.
    unfold host_view. by rewrite E1, E2, E3.
Qed.
End Frames.

(** ** From the device set-up to the read-back *)

Lemma size_cells n : 0 <= n < 2 ^ 31 -> size_bytes n / sizeof_int = n.
Proof.
  intros H. rewrite size_bytes_nonneg by done. unfold sizeof_int.
  rewrite Z.mul_comm. by apply Z.div_mul.
Qed.

Lemma blit_all (n : nat) (src dst : list Z) :
  length src = n -> length dst = n -> blit n src dst = src.
Proof.
  intros Hs Hd. unfold blit. rewrite take_ge, drop_ge by lia. apply app_nil_r.
Qed.

Ltac run_program_in H :=
  cbv beta iota zeta delta
    [mbind M_bind mret M_ret gets modify emit exit fault printf perror now
     state_of sequence_ foldr take drop
     setup_kernel_memory copy_kernel_args clCreateBuffer clEnqueueWriteBuffer
     clSetKernelArg clEnqueueNDRangeKernel clWaitForEvents clEnqueueReadBuffer
     run_kernel with_data is_null orb
     host set_host bufvar set_bufvar
     SZ v1 v2 v_out bufV1 bufV2 bufV_out err buffers kargs rand_state mallocs
     created uploads trace buf_bytes buf_data
     set_SZ set_v1 set_v2 set_v_out set_bufV1 set_bufV2 set_bufV_out set_err
     set_buffers set_kargs set_rand_state set_mallocs set_created set_uploads
     set_trace] in H.

Section DevicePhase.
Context (env : Env).
Hypothesis Hw0 : st_EnqueueWriteBuffer env 0 = CL_SUCCESS.
Hypothesis Hw1 : st_EnqueueWriteBuffer env 1 = CL_SUCCESS.
Hypothesis Ha0 : st_SetKernelArg env 0 = CL_SUCCESS.
Hypothesis Ha1 : st_SetKernelArg env 1 = CL_SUCCESS.
Hypothesis Ha2 : st_SetKernelArg env 2 = CL_SUCCESS.
Hypothesis Ha3 : st_SetKernelArg env 3 = CL_SUCCESS.
Hypothesis Hd : st_EnqueueNDRangeKernel env = CL_SUCCESS.
Hypothesis Hr : st_EnqueueReadBuffer env = CL_SUCCESS.


Ltac resolve_once H :=
  run_program_in H;
  rewrite ?Hw0, ?Hw1, ?Ha0, ?Ha1, ?Ha2, ?Ha3, ?Hd, ?Hr, ?Z.eqb_refl in H;
  repeat (rewrite ?lookup_insert_eq in H;
          rewrite ?lookup_insert_ne in H by done).

Ltac resolve_in H := repeat (progress (resolve_once H)).

Ltac branch_in H c :=
  revert H; destruct c; intros H; resolve_in H; try discriminate H.

Lemma device_phase s7 s13 (a b c : list Z) :
  let n := Z.of_nat (length a) in
  n < 2 ^ 31 ->
  length b = length a -> length c = length a ->
  device_view s7 = (n, ∅, 0%nat, 0%nat, ∅) ->
  host_view s7 = (Block a, Block b, Block c) ->
  sequence_ (take 6 (drop 7 (main_body env))) s7 = Ret tt s13 ->
  SZ s13 = n /\
  host_view s13 = (Block a, Block b, Block (zip_with sum_int a b)).
Proof.
  intros n Hn Hb Hc Hdev Hhost Hrun.
  destruct s7 as [sz p1 p2 p3 h1 h2 h3 e bufs ka rs ma cr up tr].
  unfold device_view, host_view in Hdev, Hhost. cbn in Hdev, Hhost.
  simplify_eq. unfold main_body in Hrun.
  resolve_in Hrun.
  branch_in Hrun (CreateBuffer_ok env 0);
  branch_in Hrun (CreateBuffer_ok env 1);
  branch_in Hrun (CreateBuffer_ok env 2).
  branch_in Hrun (e <? 0).
  injection Hrun as <-. split; [reflexivity|].
  unfold host_view. cbn [v1 v2 v_out]. fold n.
  assert (Hcells : Z.to_nat (size_bytes n / sizeof_int) = length a).
  { rewrite size_cells by lia. apply Nat2Z.id. }
  assert (Hjunk : length (junk_block env (size_bytes n / sizeof_int)) = length a).
  { by rewrite junk_block_length. }
  rewrite Hcells.
  rewrite (blit_all _ a), (blit_all _ b) by done.
  replace (wrap_size n) with n by (unfold wrap_size; rewrite Z.mod_small; lia).
  rewrite (nd_range_all a b) by done.
  rewrite blit_all by (rewrite ?length_zip_with; lia).
  reflexivity.
Qed.
End DevicePhase.

(** ** Runs that complete *)

Lemma main_returns_prefix (env : Env) (r : Z) (s_end : State) (k : nat) :
  main env = Ret r s_end -> exists s, main_prefix env k = Ret tt s.
Proof.
  unfold main, main_prefix. rewrite bind_unfold.
  rewrite <- (take_drop k (main_body env)) at 1. rewrite sequence_app.
  destruct (sequence_ (take k (main_body env)) initial_state) as [[] s| |];
    [eauto|discriminate..].
Qed.

Lemma sum_int_small x y :
  0 <= x < 100 -> 0 <= y < 100 -> sum_int x y = x + y.
Proof. intros Hx Hy. apply wrap_int_small. lia. Qed.

(** C1 (as stated, refuted).  A run of length 3 whose read-back answers
    [CL_OUT_OF_RESOURCES]: the status is dropped, [main] returns 0, and
    [v_out] still holds what [init] stored, not the sums. *)
Lemma completed_run_without_sum :
  exists s_end s,
    main (env_read_fails 3) = Ret 0 s_end /\
    main_prefix (env_read_fails 3) 13 = Ret tt s /\
    SZ s = 3 /\
    v1 s = Block [38; 58; 13] /\
    v2 s = Block [15; 51; 27] /\
    v_out s = Block [10; 19; 12] /\
    10 <> 38 + 15.
Proof.
  eexists _, _. split_and!; [vm_compute; reflexivity..|lia].
Qed.

(** C1 (amended).  For every run that reaches completion with vector
    length [n >= 1] and in which the calls whose status the program drops
    (the two uploads, the four argument binds, the dispatch and the
    read-back) answer [CL_SUCCESS]: after the read-back the three host
    arrays hold [n] cells each and [v_out[i]] is the [int] sum
    [v1[i] + v2[i]] for every index [i] below [n]; with a generator that
    returns non-negative values, as [rand] does, the sum does not wrap. *)
Theorem vector_sum_when_device_calls_succeed (env : Env) (s_end : State) :
  main env = Ret 0 s_end ->
  1 <= run_length env ->
  st_EnqueueWriteBuffer env 0 = CL_SUCCESS ->
  st_EnqueueWriteBuffer env 1 = CL_SUCCESS ->
  st_SetKernelArg env 0 = CL_SUCCESS ->
  st_SetKernelArg env 1 = CL_SUCCESS ->
  st_SetKernelArg env 2 = CL_SUCCESS ->
  st_SetKernelArg env 3 = CL_SUCCESS ->
  st_EnqueueNDRangeKernel env = CL_SUCCESS ->
  st_EnqueueReadBuffer env = CL_SUCCESS ->
  exists s a b c,
    main_prefix env 13 = Ret tt s /\
    SZ s = run_length env /\
    v1 s = Block a /\ v2 s = Block b /\ v_out s = Block c /\
    Z.of_nat (length a) = SZ s /\
    length b = length a /\ length c = length a /\
    forall i : nat, (Z.of_nat i < SZ s) ->
      exists x y,
        a !! i = Some x /\ b !! i = Some y /\
        c !! i = Some (wrap_int (x + y)) /\
        ((forall g, 0 <= (rand_impl env g).1) -> c !! i = Some (x + y)).
Proof.
  intros Hrun Hn Hw0 Hw1 Ha0 Ha1 Ha2 Ha3 Hd Hr.
  pose proof (run_length_range env) as Hrange.
  destruct (main_returns_prefix env 0 s_end 13 Hrun) as [s Hs].
  assert (H7 : exists s7, main_prefix env 7 = Ret tt s7 /\
                          sequence_ (take 6 (drop 7 (main_body env))) s7 = Ret tt s).
  { revert Hs. unfold main_prefix.
    change (take 13 (main_body env))
      with (take 7 (main_body env) ++ take 6 (drop 7 (main_body env))).
    rewrite sequence_app.
    destruct (sequence_ (take 7 (main_body env)) initial_state) as [[] s7| |];
      [eauto|discriminate..]. }
  destruct H7 as (s7 & H7 & Hrest).
  destruct (before_buffers env s7 ltac:(lia) H7) as [Hdev Hhost].
  set (n := Z.to_nat (run_length env)) in *.
  set (a := rand_values (rand_impl env) n rand_seed_default) in *.
  set (b := rand_values (rand_impl env) n
              (rand_after (rand_impl env) n rand_seed_default)) in *.
  set (c0 := rand_values (rand_impl env) n
               (rand_after (rand_impl env) n
                  (rand_after (rand_impl env) n rand_seed_default))) in *.
  assert (Hla : length a = n) by apply rand_values_length.
  assert (Hlb : length b = n) by apply rand_values_length.
  assert (Hlc : length c0 = n) by apply rand_values_length.
  assert (Hlen : Z.of_nat (length a) = run_length env) by (rewrite Hla; lia).
  rewrite <- Hlen in Hdev.
  destruct (device_phase env Hw0 Hw1 Ha0 Ha1 Ha2 Ha3 Hd Hr s7 s a b c0
              ltac:(lia) ltac:(lia) ltac:(lia) Hdev Hhost Hrest)
    as [HSZ Hview].
  injection Hview as E1 E2 E3.
  exists s, a, b, (zip_with sum_int a b). rewrite HSZ.
  split_and!; [done| lia | done | done | done | done | lia
              | rewrite length_zip_with; lia |].
  intros i Hi.
  assert (Hia : (i < length a)%nat) by lia.
  assert (Hib : (i < length b)%nat) by lia.
  { 
    destruct (lookup_lt_is_Some_2 a i Hia) as [x Hx].
    destruct (lookup_lt_is_Some_2 b i Hib) as [y Hy].
    exists x, y. split_and!; try done.
    + rewrite lookup_zip_with, Hx, Hy. reflexivity.
    + intros Hrand. rewrite lookup_zip_with, Hx, Hy. simpl. f_equal.
      apply sum_int_small.
      * eapply rand_values_range; [exact Hrand|].
        eapply list_elem_of_lookup_2, Hx.
      * eapply rand_values_range; [exact Hrand|].
        eapply list_elem_of_lookup_2, Hy. }
Qed.

Lemma vector_sum_when_device_calls_succeed_witness :
  exists s a b c,
    main_prefix (env_ok 3) 13 = Ret tt s /\
    SZ s = run_length (env_ok 3) /\
    v1 s = Block a /\ v2 s = Block b /\ v_out s = Block c /\
    Z.of_nat (length a) = SZ s /\
    length b = length a /\ length c = length a /\
    forall i : nat, (Z.of_nat i < SZ s) ->
      exists x y,
        a !! i = Some x /\ b !! i = Some y /\
        c !! i = Some (wrap_int (x + y)) /\
        ((forall g, 0 <= (rand_impl (env_ok 3) g).1) -> c !! i = Some (x + y)).
Proof.
  assert (Hrun : main (env_ok 3) = Ret 0 (state_of (main (env_ok 3))))
    by (vm_compute; reflexivity).
  apply (vector_sum_when_device_calls_succeed (env_ok 3) _ Hrun);
    vm_compute; congruence.
Defined.

(** [copy_kernel_args] tests the global [err], which no bind assigns:
    whatever the four binds answer, it returns when [err] is not negative
    on entry. *)
Lemma copy_kernel_args_returns (env : Env) (s : State) :
  0 <= err s -> exists s', copy_kernel_args env s = Ret tt s'.
Proof.
  intros Herr. unfold copy_kernel_args, clSetKernelArg. munfold.
  destruct (st_SetKernelArg env 0 =? CL_SUCCESS),
    (st_SetKernelArg env 1 =? CL_SUCCESS),
    (st_SetKernelArg env 2 =? CL_SUCCESS),
    (st_SetKernelArg env 3 =? CL_SUCCESS); cbn;
    (destruct (Z.ltb_spec (err s) 0); [lia|eauto]).
Qed.

(** ** The global [err] *)

Section ErrGlobal.
Context (env : Env).

(** When [build_program] returns, the global [err] holds the status of a
    build that succeeded. *)
Lemma build_program_err file s s' :
  build_program env file s = Ret tt s' -> 0 <= err s'.
Proof.
  unfold build_program, malloc. munfold.
  destruct (fopen_ok env); cbn; [|discriminate].
  destruct (malloc_ok env _); cbn; [|discriminate].
  destruct (Z.ltb_spec (st_CreateProgramWithSource env) 0); cbn; [discriminate|].
  destruct (Z.ltb_spec (st_BuildProgram env) 0); cbn.
  - destruct (malloc_ok env _); cbn; discriminate.
  - intros [= <-]. done.
Qed.

Lemma setup_err file name s s' :
  setup_openCL_device_context_queue_kernel env file name s = Ret tt s' ->
  0 <= err s'.
Proof.
  unfold setup_openCL_device_context_queue_kernel.
  rewrite bind_unfold. destruct (create_device env s) as [[] s1| |]; [|discriminate..].
  munfold. destruct (st_CreateContext env <? 0); cbn; [discriminate|].
  destruct (build_program env file _) as [[] s2| |] eqn:Hbuild; [|discriminate..].
  apply build_program_err in Hbuild.
  destruct (st_CreateCommandQueue env <? 0); cbn; [discriminate|].
  destruct (st_CreateKernel env <? 0); cbn; [discriminate|].
  intros [= <-]. done.
Qed.

Lemma err_setup_kernel_memory :
  preserves (fun s => 0 <= err s) (setup_kernel_memory env).
Proof.
  unfold setup_kernel_memory, perror. preserves_structure;
    try (intros s H; exact H).
  all: intros s H; unfold clCreateBuffer, clEnqueueWriteBuffer; cbv zeta;
    repeat case_match; exact H.
Qed.

(** No run reaches [copy_kernel_args] with a negative [err], so no run
    leaves through its [exit(1)]. *)
Lemma copy_kernel_args_always_returns s8 :
  main_prefix env 8 = Ret tt s8 -> exists s9, main_prefix env 9 = Ret tt s9.
Proof.
  intros H8.
  assert (Herr : 0 <= err s8).
  { revert H8. unfold main_prefix.
    change (take 8 (main_body env))
      with (take 6 (main_body env) ++
            [setup_openCL_device_context_queue_kernel env kernel_file kernel_name;
             setup_kernel_memory env]).
    rewrite sequence_app.
    destruct (sequence_ (take 6 (main_body env)) initial_state) as [[] s6| |];
      [|discriminate..].
    cbn [sequence_ foldr]. rewrite bind_unfold.
    destruct (setup_openCL_device_context_queue_kernel _ _ _ s6)
      as [[] s7| |] eqn:H7; [|discriminate..].
    apply setup_err in H7. rewrite bind_unfold. intros H.
    pose proof (err_setup_kernel_memory s7 H7) as Hkeep.
    destruct (setup_kernel_memory env s7) as [[] s| |]; [|discriminate..].
    injection H as <-. exact Hkeep. }
  destruct (copy_kernel_args_returns env s8 Herr) as [s9 H9].
  exists s9. unfold main_prefix in *.
  change (take 9 (main_body env))
    with (take 8 (main_body env) ++ [copy_kernel_args env]).
  rewrite sequence_app, H8. cbn [sequence_ foldr].
  rewrite bind_unfold, H9. reflexivity.
Qed.
End ErrGlobal.

(** C2 (the code on failing binds).  No run leaves through the [exit(1)]
    of [copy_kernel_args]: whenever [main] gets to it, it returns, whatever
    the four binds answer.  So in the run of length 3 in which every
    [clSetKernelArg] answers [CL_INVALID_ARG_SIZE], no argument is bound,
    the global [err] is still [CL_SUCCESS] from the build, and the process
    goes on through the dispatch, the read-back and the release and
    returns 0, with nothing on the error stream. *)
Theorem bind_failure_not_fatal :
  (forall env s8,
      main_prefix env 8 = Ret tt s8 ->
      exists s9, main_prefix env 9 = Ret tt s9) /\
  (forall i, st_SetKernelArg (env_bind_fails 3) i = -51) /\
  exists s_end,
    main (env_bind_fails 3) = Ret 0 s_end /\
    kargs s_end = ∅ /\
    err s_end = 0 /\
    filter (fun e => is_stdout e = false) (trace s_end) =
      [ EvGetPlatformIDs; EvGetDeviceIDs CL_DEVICE_TYPE_GPU; EvCreateContext;
        EvFopen kernel_file; EvCreateProgramWithSource; EvBuildProgram;
        EvCreateCommandQueue; EvCreateKernel kernel_name;
        EvCreateBuffer 12; EvCreateBuffer 12; EvCreateBuffer 12;
        EvEnqueueWriteBuffer (Some 0%nat) 12; EvEnqueueWriteBuffer (Some 1%nat) 12;
        EvSetKernelArg 0; EvSetKernelArg 1; EvSetKernelArg 2; EvSetKernelArg 3;
        EvNow; EvEnqueueNDRangeKernel 3; EvWaitForEvents;
        EvEnqueueReadBuffer (Some 2%nat) 12; EvNow; EvReportTime;
        EvReleaseMemObject (Some 0%nat); EvReleaseMemObject (Some 1%nat);
        EvReleaseMemObject (Some 2%nat); EvReleaseKernel;
        EvReleaseCommandQueue; EvReleaseProgram; EvReleaseContext ].
Proof.
  split; [exact copy_kernel_args_always_returns|].
  split; [reflexivity|]. eexists. split_and!; vm_compute; reflexivity.
Qed.

(** ** What lies between the two readings of the clock *)

Lemma logged_since_refl ok s : logged_since ok (trace s) s.
Proof. exists []. by rewrite app_nil_r. Qed.

Lemma logged_same ok tr0 s s' :
  trace s' = trace s -> logged_since ok tr0 s -> logged_since ok tr0 s'.
Proof. intros Htr (out & Hs & Hok). exists out. by rewrite Htr. Qed.

Lemma logged_event ok tr0 s s' e :
  trace s' = trace s ++ [e] -> ok e = true ->
  logged_since ok tr0 s -> logged_since ok tr0 s'.
Proof.
  intros Htr He (out & Hs & Hok). exists (out ++ [e]).
  rewrite Htr, Hs, <- app_assoc, forallb_app, Hok. cbn. by rewrite He.
Qed.

Lemma timed_events_bracket (pre mid rest : list Event) :
  forallb (fun e => negb (is_now e)) pre = true ->
  forallb (fun e => negb (is_now e)) mid = true ->
  timed_events (pre ++ EvNow :: mid ++ EvNow :: rest) = mid.
Proof.
  intros Hpre Hmid. induction pre as [|e pre IH]; cbn.
  - clear Hpre. induction mid as [|e mid IH]; cbn; [done|].
    cbn in Hmid. apply andb_prop in Hmid as [He Hmid].
    destruct e; try (by rewrite IH); discriminate.
  - cbn in Hpre. apply andb_prop in Hpre as [He Hpre].
    destruct e; try (by apply IH); discriminate.
Qed.

(** A primitive that logs at most one event, accepted by [ok]. *)
Ltac logged_prim :=
  let s := fresh "s" in
  let H := fresh "H" in
  intros s H;
  cbv beta zeta delta
    [malloc rand store load free clCreateBuffer clEnqueueWriteBuffer
     clSetKernelArg clEnqueueNDRangeKernel run_kernel clEnqueueReadBuffer
     clReleaseMemObject modify emit];
  repeat case_match;
  try match goal with A : HostVar |- _ => destruct A end;
  cbn [state_of];
  first [ exact H
        | revert H; apply logged_same; reflexivity
        | revert H; eapply logged_event; reflexivity ].

Ltac logged_program :=
  unfold init, print, printf_d, printf, perror, fopen, now,
    setup_openCL_device_context_queue_kernel, create_device, build_program,
    setup_kernel_memory, copy_kernel_args, free_memory,
    clGetPlatformIDs, clGetDeviceIDs, clCreateContext,
    clCreateProgramWithSource, clBuildProgram, clGetProgramBuildInfo,
    clCreateCommandQueueWithProperties, clCreateKernel, clWaitForEvents;
  preserves_structure; try logged_prim.

Section Timing.
Context (env : Env).

Lemma no_now_before_timing tr0 :
  Forall (preserves (logged_since (fun e => negb (is_now e)) tr0))
    (take 9 (main_body env)).
Proof.
  unfold main_body. cbn [take].
  repeat apply Forall_cons_2; try apply Forall_nil_2;
    try destruct (argv1 env); logged_program.
Qed.

Lemma only_output_in_print tr0 A size :
  preserves (logged_since is_stdout tr0) (print A size).
Proof. logged_program. Qed.

Lemma trace_grows_after_timing tr0 :
  Forall (preserves (logged_since (fun _ => true) tr0))
    (drop 15 (main_body env)).
Proof.
  unfold main_body. cbn [drop].
  repeat apply Forall_cons_2; try apply Forall_nil_2; logged_program.
Qed.
End Timing.

Lemma stdout_is_not_now (out : list Event) :
  forallb is_stdout out = true ->
  forallb (fun e => negb (is_now e)) out = true.
Proof.
  intros H. apply forallb_forall. intros e He.
  rewrite forallb_forall in H. specialize (H e He). by destruct e.
Qed.

Section TimedInterval.
Context (env : Env).

Lemma dispatch_logs s :
  exists s',
    (sz ← gets SZ; clEnqueueNDRangeKernel env (wrap_size sz) ;; mret tt) s =
      Ret tt s' /\
    trace s' = trace s ++ [EvEnqueueNDRangeKernel (wrap_size (SZ s))].
Proof.
  unfold clEnqueueNDRangeKernel, run_kernel. munfold.
  repeat case_match; simplify_eq; eexists; (split; [reflexivity|]); done.
Qed.

Lemma wait_logs s :
  exists s',
    (clWaitForEvents env ;; mret tt) s = Ret tt s' /\
    trace s' = trace s ++ [EvWaitForEvents].
Proof. munfold. eexists; split; reflexivity. Qed.

Lemma read_back_logs s :
  exists s',
    (b ← gets bufV_out; sz ← gets SZ;
     clEnqueueReadBuffer env b (size_bytes sz) V_out ;; mret tt) s = Ret tt s' /\
    trace s' = trace s ++ [EvEnqueueReadBuffer (bufV_out s) (size_bytes (SZ s))].
Proof.
  unfold clEnqueueReadBuffer. munfold.
  repeat case_match; simplify_eq; eexists; (split; [reflexivity|]); done.
Qed.

(** The trace of a run that completes, around the two readings of the
    clock. *)
Lemma completed_trace s_end :
  main env = Ret 0 s_end ->
  exists pre g b bytes out rest,
    trace s_end =
      pre ++ EvNow ::
      ([EvEnqueueNDRangeKernel g; EvWaitForEvents; EvEnqueueReadBuffer b bytes]
         ++ out) ++ EvNow :: rest /\
    forallb (fun e => negb (is_now e)) pre = true /\
    forallb is_stdout out = true.
Proof.
  unfold main. rewrite bind_unfold.
  change (main_body env)
    with (take 9 (main_body env) ++ take 4 (drop 9 (main_body env)) ++
          take 2 (drop 13 (main_body env)) ++ drop 15 (main_body env)).
  rewrite sequence_app.
  pose proof (preserves_sequence _ _ (no_now_before_timing env [])
                initial_state (logged_since_refl _ initial_state)) as H9.
  destruct (sequence_ (take 9 (main_body env)) initial_state) as [[] s9| |];
    [|discriminate..].
  destruct H9 as (pre & Hpre & Hpre_ok). cbn in Hpre.
  rewrite sequence_app. unfold main_body at 1. cbn [take drop sequence_ foldr].
  set (s9' := set_trace (trace s9 ++ [EvNow]) s9).
  assert (Hrun9 : now s9 = Ret tt s9') by reflexivity.
  destruct (dispatch_logs s9') as (s10 & Hrun10 & Htr10).
  destruct (wait_logs s10) as (s11 & Hrun11 & Htr11).
  destruct (read_back_logs s11) as (s12 & Hrun12 & Htr12).
  rewrite (bind_Ret _ _ _ _ _ Hrun9), (bind_Ret _ _ _ _ _ Hrun10),
    (bind_Ret _ _ _ _ _ Hrun11), (bind_Ret _ _ _ _ _ Hrun12).
  cbv beta iota delta [mret M_ret].
  rewrite sequence_app. unfold main_body at 1. cbn [take drop sequence_ foldr].
  pose proof (only_output_in_print (trace s12) V_out (SZ s12) s12
                (logged_since_refl _ s12)) as H13.
  rewrite bind_unfold. rewrite bind_unfold. cbv beta iota delta [gets].
  destruct (print V_out (SZ s12) s12) as [[] s13| |]; [|discriminate..].
  destruct H13 as (out & Hout & Hout_ok). cbn in Hout.
  rewrite bind_unfold. unfold now at 1, emit, modify.
  cbv beta iota delta [mret M_ret].
  set (s14 := set_trace (trace s13 ++ [EvNow]) s13).
  pose proof (preserves_sequence _ _ (trace_grows_after_timing env (trace s14))
                s14 (logged_since_refl _ s14)) as H15.
  destruct (sequence_ (drop 15 (main_body env)) s14) as [[] s17| |];
    [|discriminate..].
  destruct H15 as (rest & Hrest & _). cbn in Hrest.
  intros [= <-].
  exists pre, (wrap_size (SZ s9')), (bufV_out s11), (size_bytes (SZ s11)), out, rest.
  split; [|done].
  rewrite Hrest. unfold s14. cbn [trace set_trace].
  rewrite Hout, Htr12, Htr11, Htr10. unfold s9'. cbn [trace set_trace].
  rewrite Hpre. rewrite <- !app_assoc. reflexivity.
Qed.
End TimedInterval.

(** In every run that completes, the read-back and the printing of the
    result lie between the two readings of the clock. *)
Lemma timed_interval_of_completed_run (env : Env) (s_end : State) :
  main env = Ret 0 s_end ->
  exists g b bytes out,
    timed_events (trace s_end) =
      [EvEnqueueNDRangeKernel g; EvWaitForEvents; EvEnqueueReadBuffer b bytes]
        ++ out /\
    forallb is_stdout out = true.
Proof.
  intros Hrun.
  destruct (completed_trace env s_end Hrun)
    as (pre & g & b & bytes & out & rest & Htr & Hpre & Hout).
  exists g, b, bytes, out. split; [|done].
  rewrite Htr. apply timed_events_bracket; [done|].
  cbn. by apply stdout_is_not_now.
Qed.

(** C3 (the code on completed runs).  In every run that completes, the
    events between the two readings of the clock are the dispatch and the
    wait, and then the read-back of [bufV_out] and the output of
    [print(v_out, SZ)]; no upload and no set-up call is among them.  In the
    run of length 3 in which every call succeeds they are the seven events
    listed. *)
Theorem timed_interval_holds_read_back :
  (forall env s_end,
      main env = Ret 0 s_end ->
      exists g b bytes out,
        timed_events (trace s_end) =
          [EvEnqueueNDRangeKernel g; EvWaitForEvents;
           EvEnqueueReadBuffer b bytes] ++ out /\
        forallb is_stdout out = true) /\
  exists s_end,
    main (env_ok 3) = Ret 0 s_end /\
    timed_events (trace s_end) =
      [ EvEnqueueNDRangeKernel 3; EvWaitForEvents;
        EvEnqueueReadBuffer (Some 2%nat) 12;
        shown 53; shown 109; shown 40; separator ].
Proof.
  split; [exact timed_interval_of_completed_run|].
  eexists. split; vm_compute; reflexivity.
Qed.

(** * Further properties *)

(** ** [print] on its own *)

Lemma print_nonpositive (A : HostVar) (size : Z) (s : State) :
  size <= 0 ->
  print A size s = Ret tt (set_trace (trace s ++ [separator]) s).
Proof.
  intros Hsize. unfold print. change (PRINT =? 0) with false.
  change (PRINT =? 1) with true. cbv iota. rewrite andb_true_l.
  destruct (Z.gtb_spec size 15) as [Hbig|_]; [lia|].
  unfold for_range. replace (Z.to_nat (size - 0)) with 0%nat by lia.
  reflexivity.
Qed.

(** X1.  [print(A, size)] with [size <= 0] reads no element, whatever [A]
    points to (null included): it writes the closing line of dashes and
    returns. *)
Theorem print_nothing_to_show (A : HostVar) (size : Z) (s : State) :
  size <= 0 ->
  print A size s = Ret tt (set_trace (trace s ++ [separator]) s).
Proof. apply print_nonpositive. Qed.

Lemma print_nothing_to_show_witness :
  print V1 0 initial_state = Ret tt (set_trace [separator] initial_state).
Proof. apply (print_nothing_to_show V1 0 initial_state). lia. Defined.

Lemma output_added_load s0 A i : preserves (output_added s0) (load A i).
Proof. intros s H. unfold load. by repeat case_match. Qed.

Lemma output_added_stdout s0 t :
  stable (output_added s0) (fun s => set_trace (trace s ++ [EvStdout t]) s).
Proof.
  intros s (out & -> & Hout). exists (out ++ [EvStdout t]). split.
  - cbn [trace set_trace]. by rewrite set_trace_twice, app_assoc.
  - rewrite forallb_app, Hout. reflexivity.
Qed.

Lemma print_adds_output (A : HostVar) (size : Z) (s : State) :
  output_added s (state_of (print A size s)).
Proof.
  assert (Hp : preserves (output_added s) (print A size)).
  { unfold print, printf_d, printf. preserves_structure;
      auto using output_added_load, output_added_stdout. }
  apply Hp. exists []. by rewrite app_nil_r, set_trace_id.
Qed.

(** X2.  Whatever its arguments and however it ends, [print] changes
    nothing of the process but its standard output: no array, no buffer,
    no variable; and it never calls [exit]. *)
Theorem print_only_writes_output (A : HostVar) (size : Z) (s : State) :
  exists out,
    state_of (print A size s) = set_trace (trace s ++ out) s /\
    forallb is_stdout out = true /\
    (forall c s', print A size s <> Exit c s').
Proof.
  destruct (print_adds_output A size s) as (out & Hs & Hout).
  exists out. split_and!; [done..|]. apply no_exit_print.
Qed.

(** ** The three calls of [init] *)

Lemma rand_values_app step n m g :
  rand_values step (n + m) g =
  rand_values step n g ++ rand_values step m (rand_after step n g).
Proof.
  revert g. induction n as [|n IH]; intros g; cbn; [done|]. by rewrite IH.
Qed.

(** X3.  The three calls of [init] in [main] draw from one generator: once
    they have returned, [v1], [v2] and [v_out] hold, one after the other,
    the first [3 * SZ] values of the generator started from the default
    seed, each taken modulo 100. *)
Theorem inits_share_one_sequence (env : Env) (s : State) :
  main_prefix env 4 = Ret tt s ->
  let n := Z.to_nat (SZ s) in
  stored (SZ s) (v1 s) ++ stored (SZ s) (v2 s) ++ stored (SZ s) (v_out s) =
    rand_values (rand_impl env) (n + n + n) rand_seed_default.
Proof.
  intros Hrun n.
  apply main_inits in Hrun as (HSZ & H1 & H2 & H3 & _).
  unfold n. rewrite HSZ, H1, H2, H3.
  rewrite <- Nat.add_assoc, !rand_values_app. reflexivity.
Qed.

Lemma inits_share_one_sequence_witness :
  exists s,
    main_prefix (env_ok 2) 4 = Ret tt s /\
    stored (SZ s) (v1 s) ++ stored (SZ s) (v2 s) ++ stored (SZ s) (v_out s) =
      [38; 58; 13; 15; 51; 27].
Proof.
  assert (H : main_prefix (env_ok 2) 4
              = Ret tt (state_of (main_prefix (env_ok 2) 4)))
    by (vm_compute; reflexivity).
  eexists. split; [exact H|].
  rewrite (inits_share_one_sequence (env_ok 2) _ H). vm_compute. reflexivity.
Defined.

(** ** A length that is not positive *)

Section Degenerate.
Context (env : Env).
Hypothesis Hlen : run_length env <= 0.

Lemma init_step_nonpositive A s :
  SZ s = run_length env ->
  exists p,
    (sz ← gets SZ; init env A sz) s =
      Ret tt (set_host A p (set_mallocs (S (mallocs s)) s)).
Proof.
  intros HSZ. rewrite bind_unfold. cbv beta iota delta [gets]. rewrite HSZ.
  rewrite init_nonpositive by done. eauto.
Qed.

Lemma print_step_nonpositive A s :
  SZ s = run_length env ->
  (sz ← gets SZ; print A sz) s =
    Ret tt (set_trace (trace s ++ [separator]) s).
Proof.
  intros HSZ. rewrite bind_unfold. cbv beta iota delta [gets]. rewrite HSZ.
  by apply print_nonpositive.
Qed.

Lemma host_phase_nonpositive :
  exists s,
    main_prefix env 6 = Ret tt s /\
    trace s = [separator; separator] /\
    rand_state s = rand_seed_default /\
    mallocs s = 3%nat /\
    SZ s = run_length env.
Proof.
  rewrite main_prefix_S. unfold main_body. cbn [take drop sequence_ foldr].
  destruct (init_step_nonpositive V1 (started env) eq_refl) as [p1 H1].
  rewrite (bind_Ret _ _ _ _ _ H1). clear H1.
  set (s1 := set_host V1 p1 _).
  destruct (init_step_nonpositive V2 s1 eq_refl) as [p2 H2].
  rewrite (bind_Ret _ _ _ _ _ H2). clear H2.
  set (s2 := set_host V2 p2 _).
  destruct (init_step_nonpositive V_out s2 eq_refl) as [p3 H3].
  rewrite (bind_Ret _ _ _ _ _ H3). clear H3.
  set (s3 := set_host V_out p3 _).
  rewrite (bind_Ret _ _ _ _ _ (print_step_nonpositive V1 s3 eq_refl)).
  set (s4 := set_trace _ s3).
  rewrite (bind_Ret _ _ _ _ _ (print_step_nonpositive V2 s4 eq_refl)).
  eexists. split; [reflexivity|]. done.
Qed.
End Degenerate.

(** X4.  A length that is zero or negative is not rejected: whether or not
    the allocations succeed, the host part of [main] returns, having
    allocated three times, drawn no random number, and printed two empty
    vectors; the run goes on to the device set-up with that length. *)
Theorem nonpositive_length_host_phase (env : Env) :
  run_length env <= 0 ->
  exists s,
    main_prefix env 6 = Ret tt s /\
    trace s = [separator; separator] /\
    rand_state s = rand_seed_default /\
    mallocs s = 3%nat /\
    SZ s = run_length env.
Proof. apply host_phase_nonpositive. Qed.

Lemma nonpositive_length_host_phase_witness :
  exists s,
    main_prefix (env_no_memory 0) 6 = Ret tt s /\
    trace s = [separator; separator] /\
    rand_state s = rand_seed_default /\
    mallocs s = 3%nat /\
    SZ s = run_length (env_no_memory 0).
Proof.
  apply (nonpositive_length_host_phase (env_no_memory 0)).
  vm_compute. discriminate.
Defined.

Lemma size_bytes_negative n :
  - 2 ^ 31 <= n < 0 -> size_bytes n = 2 ^ 64 + 4 * n.
Proof.
  intros H. unfold size_bytes, wrap_size, sizeof_int.
  replace (n mod 2 ^ 64) with (2 ^ 64 + n).
  - replace ((2 ^ 64 + n) * 4) with (2 ^ 64 + 4 * n + 3 * 2 ^ 64) by lia.
    rewrite Z.mod_add by lia. apply Z.mod_small. lia.
  - symmetry. replace n with (2 ^ 64 + n + (-1) * 2 ^ 64) at 1 by lia.
    rewrite Z.mod_add by lia. apply Z.mod_small. lia.
Qed.

(** X5.  With a negative length, the conversion of [SZ] to [size_t] wraps
    around: every buffer the run asks the device for has
    [2^64 + 4 * SZ] bytes, more than [2^63]. *)
Theorem negative_length_wraps (env : Env) (k : nat) (bytes : Z) :
  run_length env < 0 ->
  EvCreateBuffer bytes ∈ trace (state_of (main_prefix env (S k))) ->
  bytes = 2 ^ 64 + 4 * run_length env /\ 2 ^ 63 < bytes.
Proof.
  intros Hneg Hin. pose proof (run_length_range env) as Hrange.
  destruct (sized_main_prefix env k) as (HSZ & _ & Hcreate).
  rewrite (Hcreate bytes Hin), HSZ, size_bytes_negative by lia. lia.
Qed.

Lemma negative_length_wraps_witness :
  run_length (env_no_buffer (-1)) < 0 /\
  EvCreateBuffer (2 ^ 64 - 4)
    ∈ trace (state_of (main_prefix (env_no_buffer (-1)) 8)) /\
  2 ^ 64 - 4 = 2 ^ 64 + 4 * run_length (env_no_buffer (-1)).
Proof.
  assert (Hneg : run_length (env_no_buffer (-1)) < 0) by (vm_compute; done).
  assert (Hin : EvCreateBuffer (2 ^ 64 - 4)
                  ∈ trace (state_of (main_prefix (env_no_buffer (-1)) 8)))
    by in_list.
  split; [exact Hneg|]. split; [exact Hin|].
  apply (negative_length_wraps (env_no_buffer (-1)) 7 _ Hneg Hin).
Defined.

(** ** The device set-up *)

(** X6.  When no platform is found, [create_device] prints its message
    and exits with status 1 before it has asked for any device. *)
Theorem create_device_without_platform (env : Env) (s : State) :
  st_GetPlatformIDs env < 0 ->
  create_device env s =
    Exit 1 (set_trace (trace s ++ [EvGetPlatformIDs;
                                   EvStderr "Couldn't identify a platform"]) s).
Proof.
  intros H. unfold create_device. munfold.
  destruct (Z.ltb_spec (st_GetPlatformIDs env) 0); [|lia].
  cbn. by rewrite set_trace_twice, <- app_assoc.
Qed.

Lemma create_device_without_platform_witness :
  create_device (env_no_platform 3) initial_state =
    Exit 1 (set_trace [EvGetPlatformIDs;
                       EvStderr "Couldn't identify a platform"] initial_state).
Proof.
  apply (create_device_without_platform (env_no_platform 3) initial_state).
  vm_compute. reflexivity.
Defined.

Section SetupReturns.
Context (env : Env).

Lemma create_device_returns s s' :
  create_device env s = Ret tt s' <->
  0 <= st_GetPlatformIDs env /\ 0 <= chosen_status env /\
  s' = set_trace (trace s ++ device_events env) s.
Proof.
  unfold create_device, chosen_status, device_events. munfold.
  destruct (Z.ltb_spec (st_GetPlatformIDs env) 0).
  { split; [discriminate|]. intros (? & _). lia. }
  destruct (st_GetDeviceIDs env CL_DEVICE_TYPE_GPU =? CL_DEVICE_NOT_FOUND).
  - destruct (Z.ltb_spec (st_GetDeviceIDs env CL_DEVICE_TYPE_CPU) 0).
    { split; [discriminate|]. intros (_ & ? & _). lia. }
    cbn. rewrite !set_trace_twice, <- !app_assoc. cbn.
    split; [intros [= <-]; done|]. by intros (_ & _ & ->).
  - destruct (Z.ltb_spec (st_GetDeviceIDs env CL_DEVICE_TYPE_GPU) 0).
    { split; [discriminate|]. intros (_ & ? & _). lia. }
    cbn. rewrite !set_trace_twice, <- !app_assoc. cbn.
    split; [intros [= <-]; done|]. by intros (_ & _ & ->).
Qed.

Lemma build_program_returns file s s' :
  build_program env file s = Ret tt s' <->
  fopen_ok env = true /\ malloc_ok env (mallocs s) = true /\
  0 <= st_CreateProgramWithSource env /\ 0 <= st_BuildProgram env /\
  s' = set_err (st_BuildProgram env)
         (set_mallocs (S (mallocs s))
            (set_trace (trace s ++ [EvFopen file; EvCreateProgramWithSource;
                                    EvBuildProgram]) s)).
Proof.
  unfold build_program, malloc. munfold.
  destruct (fopen_ok env); cbn.
  2: { split; [discriminate|]. by intros (? & _). }
  destruct (malloc_ok env (mallocs s)); cbn.
  2: { split; [discriminate|]. by intros (_ & ? & _). }
  destruct (Z.ltb_spec (st_CreateProgramWithSource env) 0); cbn.
  { split; [discriminate|]. intros (_ & _ & ? & _). lia. }
  destruct (Z.ltb_spec (st_BuildProgram env) 0); cbn.
  { split; [|intros (_ & _ & _ & ? & _); lia].
    destruct (malloc_ok env _); cbn; discriminate. }
  rewrite <- !app_assoc. cbn.
  split; [intros [= <-]; done|]. by intros (_ & _ & _ & _ & ->).
Qed.

Lemma setup_returns_iff file name s s' :
  setup_openCL_device_context_queue_kernel env file name s = Ret tt s' <->
  setup_succeeds env (mallocs s) /\ s' = after_setup env file name s.
Proof.
  unfold setup_openCL_device_context_queue_kernel, setup_succeeds, after_setup,
    setup_events.
  rewrite bind_unfold.
  destruct (create_device env s) as [[] s1|c s1|s1] eqn:Hdev.
  2,3: split; [discriminate|]; intros ((Hp & Hc & _) & _);
       pose proof (proj2 (create_device_returns s _)
                     (conj Hp (conj Hc eq_refl))) as X;
       rewrite Hdev in X; discriminate X.
  apply create_device_returns in Hdev as (Hp & Hc & ->).
  munfold.
  destruct (Z.ltb_spec (st_CreateContext env) 0); cbn.
  { split; [discriminate|]. intros ((_ & _ & ? & _) & _). lia. }
  rewrite set_trace_twice.
  set (s2 := set_trace _ s).
  destruct (build_program env file s2) as [[] s3|c s3|s3] eqn:Hbuild.
  2,3: split; [discriminate|];
       intros ((_ & _ & _ & Hf & Hm & Hcp & Hb & _) & _);
       pose proof (proj2 (build_program_returns file s2 _)
                     (conj Hf (conj Hm (conj Hcp (conj Hb eq_refl))))) as X;
       rewrite Hbuild in X; discriminate X.
  apply build_program_returns in Hbuild as (Hf & Hm & Hcp & Hb & ->).
  destruct (Z.ltb_spec (st_CreateCommandQueue env) 0); cbn.
  { split; [discriminate|]. intros ((_ & _ & _ & _ & _ & _ & _ & ? & _) & _). lia. }
  destruct (Z.ltb_spec (st_CreateKernel env) 0); cbn.
  { split; [discriminate|]. intros ((_ & _ & _ & _ & _ & _ & _ & _ & ?) & _). lia. }
  rewrite <- !app_assoc. cbn.
  split; [intros [= <-]; done|]. by intros (_ & ->).
Qed.

End SetupReturns.

(** X7.  The device set-up returns exactly when every one of its calls
    succeeds: the platform and the chosen device are found, the context is
    created, the kernel file opens, the buffer for its text is allocated,
    the program is created and built, and the queue and the kernel are
    created.  It then has logged these calls in this order, allocated
    once, and left the status of the build in the global [err]; it
    changes nothing else. *)
Theorem setup_returns_when_all_succeed
    (env : Env) (file name : string) (s s' : State) :
  setup_openCL_device_context_queue_kernel env file name s = Ret tt s' <->
  setup_succeeds env (mallocs s) /\ s' = after_setup env file name s.
Proof. apply setup_returns_iff. Qed.



(** ** [copy_kernel_args] *)

Section CopyKernelArgs.
Context (env : Env).

Lemma copy_kernel_args_slots s :
  0 <= err s ->
  exists s',
    copy_kernel_args env s = Ret tt s' /\
    trace s' = trace s ++ [EvSetKernelArg 0; EvSetKernelArg 1;
                           EvSetKernelArg 2; EvSetKernelArg 3] /\
    kargs s' !! 0 = bound (st_SetKernelArg env 0) (KInt (SZ s)) (kargs s !! 0) /\
    kargs s' !! 1 = bound (st_SetKernelArg env 1) (KMem (bufV1 s)) (kargs s !! 1) /\
    kargs s' !! 2 = bound (st_SetKernelArg env 2) (KMem (bufV2 s)) (kargs s !! 2) /\
    kargs s' !! 3 = bound (st_SetKernelArg env 3) (KMem (bufV_out s)) (kargs s !! 3) /\
    device_handles s' = device_handles s /\
    buffers s' = buffers s /\ host_view s' = host_view s.
Proof.
  intros Herr. unfold copy_kernel_args, clSetKernelArg, bound. munfold.
  destruct (st_SetKernelArg env 0 =? CL_SUCCESS),
    (st_SetKernelArg env 1 =? CL_SUCCESS),
    (st_SetKernelArg env 2 =? CL_SUCCESS),
    (st_SetKernelArg env 3 =? CL_SUCCESS); cbn;
    (destruct (Z.ltb_spec (err s) 0); [lia|]);
    (eexists; split; [reflexivity|]); cbn;
    rewrite <- ?app_assoc;
    repeat (rewrite ?lookup_insert_eq; rewrite ?lookup_insert_ne by done);
    done.
Qed.

Lemma copy_kernel_args_stale_error s :
  err s < 0 ->
  exists s',
    copy_kernel_args env s = Exit 1 s' /\
    trace s' = trace s ++ [EvSetKernelArg 0; EvSetKernelArg 1;
                           EvSetKernelArg 2; EvSetKernelArg 3;
                           EvStderr "Couldn't create a kernel argument";
                           EvStdout ("error = " +:+ pretty (err s))].
Proof.
  intros Herr. unfold copy_kernel_args, clSetKernelArg. munfold.
  destruct (st_SetKernelArg env 0 =? CL_SUCCESS),
    (st_SetKernelArg env 1 =? CL_SUCCESS),
    (st_SetKernelArg env 2 =? CL_SUCCESS),
    (st_SetKernelArg env 3 =? CL_SUCCESS); cbn;
    (destruct (Z.ltb_spec (err s) 0); [|lia]);
    (eexists; split; [reflexivity|]); cbn;
    rewrite <- ?app_assoc; done.
Qed.
End CopyKernelArgs.

(** X9.  [copy_kernel_args] binds [SZ], [bufV1], [bufV2] and [bufV_out] to
    the slots 0 to 3, in this order; a bind that fails leaves its slot as
    it was.  Whether the function returns or exits is decided by the
    global [err] as it was on entry, not by the binds: it returns when
    [err] is not negative and exits with status 1 after the four binds
    when it is. *)
Theorem copy_kernel_args_binds (env : Env) (s : State) :
  (0 <= err s ->
   exists s',
     copy_kernel_args env s = Ret tt s' /\
     trace s' = trace s ++ [EvSetKernelArg 0; EvSetKernelArg 1;
                            EvSetKernelArg 2; EvSetKernelArg 3] /\
     kargs s' !! 0 = bound (st_SetKernelArg env 0) (KInt (SZ s)) (kargs s !! 0) /\
     kargs s' !! 1 = bound (st_SetKernelArg env 1) (KMem (bufV1 s)) (kargs s !! 1) /\
     kargs s' !! 2 = bound (st_SetKernelArg env 2) (KMem (bufV2 s)) (kargs s !! 2) /\
     kargs s' !! 3 = bound (st_SetKernelArg env 3) (KMem (bufV_out s)) (kargs s !! 3) /\
     device_handles s' = device_handles s /\
     buffers s' = buffers s /\ host_view s' = host_view s) /\
  (err s < 0 ->
   exists s',
     copy_kernel_args env s = Exit 1 s' /\
     trace s' = trace s ++ [EvSetKernelArg 0; EvSetKernelArg 1;
                            EvSetKernelArg 2; EvSetKernelArg 3;
                            EvStderr "Couldn't create a kernel argument";
                            EvStdout ("error = " +:+ pretty (err s))]).
Proof.
  split; [apply copy_kernel_args_slots|apply copy_kernel_args_stale_error].
Qed.

(** ** [free_memory] *)

(** Computes projections of updated states, and nothing else. *)
Ltac state_simpl :=
  cbv beta iota zeta delta
    [host set_host bufvar set_bufvar
     SZ v1 v2 v_out bufV1 bufV2 bufV_out err buffers kargs rand_state mallocs
     created uploads trace
     set_SZ set_v1 set_v2 set_v_out set_bufV1 set_bufV2 set_bufV_out set_err
     set_buffers set_kargs set_rand_state set_mallocs set_created set_uploads
     set_trace].

Lemma free_memory_returns s :
  v1 s <> Dangling -> v2 s <> Dangling -> v_out s <> Dangling ->
  free_memory s = Ret tt (after_free_memory s).
Proof.
  intros H1 H2 H3. destruct s as [sz p1 p2 p3 h1 h2 h3 e bufs ka rs ma cr up tr].
  cbn in H1, H2, H3.
  destruct p1 as [|c1|]; [| |congruence];
    (destruct p2 as [|c2|]; [| |congruence]);
    (destruct p3 as [|c3|]; [| |congruence]);
    destruct h1, h2, h3;
    unfold free_memory, clReleaseMemObject, free, after_free_memory,
      release_events, release, freed; munfold; state_simpl;
    rewrite <- ?app_assoc; reflexivity.
Qed.

Lemma free_memory_no_exit : no_exit free_memory.
Proof.
  unfold free_memory. no_exit_structure; intros s c s';
    unfold clReleaseMemObject, free; munfold; try discriminate;
    by repeat case_match.
Qed.

Lemma free_memory_ret s s' :
  free_memory s = Ret tt s' -> s' = after_free_memory s.
Proof.
  destruct s as [sz p1 p2 p3 h1 h2 h3 e bufs ka rs ma cr up tr].
  destruct p1 as [|c1|], p2 as [|c2|], p3 as [|c3|];
    first
      [ rewrite free_memory_returns by (cbn; discriminate); by intros [= <-]
      | unfold free_memory, clReleaseMemObject, free; munfold; state_simpl;
        destruct h1, h2, h3; state_simpl; discriminate ].
Qed.

(** ** [setup_kernel_memory] *)

Ltac device_simpl :=
  cbv beta iota zeta delta [is_null orb with_data buf_bytes buf_data];
  state_simpl.

Ltac skm_unfold :=
  unfold setup_kernel_memory, clCreateBuffer, clEnqueueWriteBuffer, perror;
  munfold; state_simpl.

Section SetupKernelMemory.
Context (env : Env).

Lemma setup_kernel_memory_null s :
  buffers_granted env (created s) = false ->
  exists s',
    setup_kernel_memory env s = Exit 1 s' /\
    trace s' = trace s ++ creation_events s ++
               [EvStderr "Couldn't create a buffer"] /\
    uploads s' = uploads s /\
    created s' = (3 + created s)%nat /\
    (forall j, (j < 3)%nat -> CreateBuffer_ok env (created s + j) = true ->
               is_Some (buffers s' !! (created s + j)%nat)).
Proof.
  unfold buffers_granted, creation_events.
  destruct s as [sz p1 p2 p3 h1 h2 h3 e bufs ka rs ma cr up tr]. state_simpl.
  intros Hnull. skm_unfold.
  destruct (CreateBuffer_ok env cr) eqn:H0; state_simpl;
    destruct (CreateBuffer_ok env (S cr)) eqn:H1; state_simpl;
    destruct (CreateBuffer_ok env (S (S cr))) eqn:H2; state_simpl;
    try discriminate Hnull;
    (eexists; split; [reflexivity|]); state_simpl;
    rewrite <- ?app_assoc;
    (split_and!; [reflexivity..|]);
    intros j Hj Hok;
    (destruct j as [|[|[|j]]]; [| | |lia]);
    rewrite ?Nat.add_0_r, ?Nat.add_1_r in *;
    replace (cr + 2)%nat with (S (S cr)) in * by lia;
    try congruence;
    repeat (rewrite ?lookup_insert_eq; rewrite ?lookup_insert_ne by lia);
    eauto.
Qed.

Lemma setup_kernel_memory_granted s :
  buffers_granted env (created s) = true ->
  exists s',
    setup_kernel_memory env s = Ret tt s' /\
    trace s' = trace s ++ creation_events s ++ upload_events s /\
    device_handles s' =
      (SZ s, Some (created s), Some (S (created s)), Some (S (S (created s)))) /\
    created s' = (3 + created s)%nat /\
    uploads s' = (2 + uploads s)%nat /\
    host_view s' = host_view s /\ kargs s' = kargs s /\ err s' = err s /\
    (forall h, (h < created s \/ 3 + created s <= h)%nat ->
               buffers s' !! h = buffers s !! h) /\
    (forall h b, buffers s' !! h = Some b ->
                 (created s <= h < 3 + created s)%nat ->
                 buf_bytes b = size_bytes (SZ s)).
Proof.
  unfold buffers_granted, creation_events, upload_events, device_handles,
    host_view.
  destruct s as [sz p1 p2 p3 h1 h2 h3 e bufs ka rs ma cr up tr]. device_simpl.
  intros Hok. apply andb_prop in Hok as [Hok H2].
  apply andb_prop in Hok as [H0 H1].
  skm_unfold. rewrite H0. device_simpl. rewrite H1. device_simpl.
  rewrite H2. device_simpl.
  repeat (rewrite ?lookup_insert_eq; rewrite ?lookup_insert_ne by lia).
  destruct (st_EnqueueWriteBuffer env up =? CL_SUCCESS), p1; device_simpl;
    repeat (rewrite ?lookup_insert_eq; rewrite ?lookup_insert_ne by lia);
    device_simpl;
    destruct (st_EnqueueWriteBuffer env (S up) =? CL_SUCCESS), p2; device_simpl;
    repeat (rewrite ?lookup_insert_eq; rewrite ?lookup_insert_ne by lia);
    device_simpl;
    (eexists; split; [reflexivity|]); device_simpl;
    rewrite <- ?app_assoc;
    (split_and!;
     [ reflexivity..
     | intros h Hh;
       repeat (rewrite lookup_insert_ne by lia); reflexivity
     | intros h b Hb Hh;
       repeat (apply lookup_insert_Some in Hb as [[? <-]|[? Hb]];
               [reflexivity|]);
       lia ]).
Qed.

Lemma setup_kernel_memory_uploads s (a b : list Z) :
  buffers_granted env (created s) = true ->
  v1 s = Block a -> v2 s = Block b ->
  SZ s = Z.of_nat (length a) -> SZ s < 2 ^ 31 -> length b = length a ->
  exists s',
    setup_kernel_memory env s = Ret tt s' /\
    buffers s' !! created s =
      Some {| buf_bytes := size_bytes (SZ s);
              buf_data := if st_EnqueueWriteBuffer env (uploads s) =? CL_SUCCESS
                          then a else junk_block env (SZ s) |} /\
    buffers s' !! S (created s) =
      Some {| buf_bytes := size_bytes (SZ s);
              buf_data := if st_EnqueueWriteBuffer env (S (uploads s)) =? CL_SUCCESS
                          then b else junk_block env (SZ s) |} /\
    buffers s' !! S (S (created s)) =
      Some {| buf_bytes := size_bytes (SZ s);
              buf_data := junk_block env (SZ s) |} /\
    host_view s' = host_view s.
Proof.
  unfold buffers_granted, host_view.
  destruct s as [sz p1 p2 p3 h1 h2 h3 e bufs ka rs ma cr up tr]. device_simpl.
  intros Hok -> -> -> Hsz Hlen. apply andb_prop in Hok as [Hok H2].
  apply andb_prop in Hok as [H0 H1].
  set (n := Z.of_nat (length a)) in *.
  assert (Hcells : size_bytes n / sizeof_int = n) by (apply size_cells; lia).
  assert (Hjunk : length (junk_block env n) = length a).
  { rewrite junk_block_length. unfold n. apply Nat2Z.id. }
  skm_unfold. rewrite H0. device_simpl. rewrite H1. device_simpl.
  rewrite H2. device_simpl. rewrite !Hcells.
  replace (Z.to_nat n) with (length a) by (unfold n; lia).
  repeat (rewrite ?lookup_insert_eq; rewrite ?lookup_insert_ne by lia).
  destruct (st_EnqueueWriteBuffer env up =? CL_SUCCESS); device_simpl;
    repeat (rewrite ?lookup_insert_eq; rewrite ?lookup_insert_ne by lia);
    device_simpl;
    destruct (st_EnqueueWriteBuffer env (S up) =? CL_SUCCESS); device_simpl;
    repeat (rewrite ?lookup_insert_eq; rewrite ?lookup_insert_ne by lia);
    device_simpl;
    (eexists; split; [reflexivity|]); device_simpl;
    repeat (rewrite ?lookup_insert_eq; rewrite ?lookup_insert_ne by lia);
    rewrite ?(blit_all _ a), ?(blit_all _ b) by lia;
    done.
Qed.
End SetupKernelMemory.

(** X10.  [setup_kernel_memory] asks for all three buffers before it looks
    at any handle.  When one of them is null it prints its message and
    exits with status 1: nothing is uploaded, and the buffers that were
    granted stay in device memory, unreleased. *)
Theorem null_buffer_is_fatal (env : Env) (s : State) :
  buffers_granted env (created s) = false ->
  exists s',
    setup_kernel_memory env s = Exit 1 s' /\
    trace s' = trace s ++ creation_events s ++
               [EvStderr "Couldn't create a buffer"] /\
    uploads s' = uploads s /\
    created s' = (3 + created s)%nat /\
    (forall j, (j < 3)%nat -> CreateBuffer_ok env (created s + j) = true ->
               is_Some (buffers s' !! (created s + j)%nat)).
Proof. apply setup_kernel_memory_null. Qed.

Lemma null_buffer_is_fatal_witness :
  exists s',
    setup_kernel_memory (env_no_buffer 3) initial_state = Exit 1 s' /\
    uploads s' = 0%nat /\ created s' = 3%nat.
Proof.
  destruct (null_buffer_is_fatal (env_no_buffer 3) initial_state eq_refl)
    as (s' & Hrun & _ & Hup & Hcr & _).
  exists s'. done.
Defined.

(** X11.  With the three buffers granted and the host arrays [v1] and
    [v2] holding [SZ] elements each, [setup_kernel_memory] returns with
    [bufV1], [bufV2] and [bufV_out] naming three new buffers of
    [SZ * sizeof(int)] bytes: the first holds a copy of [v1] and the
    second a copy of [v2], each when its upload succeeded and
    uninitialised memory otherwise (the status of an upload is not
    looked at); the output buffer is uninitialised.  The host arrays are
    unchanged. *)
Theorem uploads_mirror_host_arrays (env : Env) (s : State) (a b : list Z) :
  buffers_granted env (created s) = true ->
  v1 s = Block a -> v2 s = Block b ->
  SZ s = Z.of_nat (length a) -> SZ s < 2 ^ 31 -> length b = length a ->
  exists s',
    setup_kernel_memory env s = Ret tt s' /\
    buffers s' !! created s =
      Some {| buf_bytes := size_bytes (SZ s);
              buf_data := if st_EnqueueWriteBuffer env (uploads s) =? CL_SUCCESS
                          then a else junk_block env (SZ s) |} /\
    buffers s' !! S (created s) =
      Some {| buf_bytes := size_bytes (SZ s);
              buf_data := if st_EnqueueWriteBuffer env (S (uploads s)) =? CL_SUCCESS
                          then b else junk_block env (SZ s) |} /\
    buffers s' !! S (S (created s)) =
      Some {| buf_bytes := size_bytes (SZ s);
              buf_data := junk_block env (SZ s) |} /\
    bufV1 s' = Some (created s) /\ bufV2 s' = Some (S (created s)) /\
    bufV_out s' = Some (S (S (created s))) /\
    host_view s' = host_view s.
Proof.
  intros Hg Ha Hb HSZ Hlt Hlen.
  destruct (setup_kernel_memory_uploads env s a b Hg Ha Hb HSZ Hlt Hlen)
    as (s' & Hrun & H1 & H2 & H3 & Hhost).
  destruct (setup_kernel_memory_granted env s Hg)
    as (s'' & Hrun' & _ & Hh & _).
  rewrite Hrun in Hrun'. injection Hrun' as <-.
  injection Hh as _ E1 E2 E3. exists s'. done.
Qed.

Lemma uploads_mirror_host_arrays_witness :
  exists s',
    setup_kernel_memory (env_ok 2)
      (set_SZ 2 (set_v2 (Block [3; 4]) (set_v1 (Block [1; 2]) initial_state)))
      = Ret tt s' /\
    buf_data <$> buffers s' !! 0%nat = Some [1; 2] /\
    buf_data <$> buffers s' !! 1%nat = Some [3; 4].
Proof.
  destruct (uploads_mirror_host_arrays (env_ok 2)
              (set_SZ 2 (set_v2 (Block [3; 4]) (set_v1 (Block [1; 2]) initial_state)))
              [1; 2] [3; 4] eq_refl eq_refl eq_refl eq_refl eq_refl eq_refl)
    as (s' & Hrun & H1 & H2 & _).
  exists s'. split; [exact Hrun|].
  cbn [created set_SZ set_v1 set_v2 initial_state] in H1, H2.
  rewrite H1, H2. done.
Defined.

(** ** The exit status *)

Lemma exits_with_bind code {A B} (m : M A) (f : A -> M B) :
  exits_with code m -> (forall a, exits_with code (f a)) ->
  exits_with code (m ≫= f).
Proof.
  intros Hm Hf s c s'. rewrite bind_unfold.
  destruct (m s) eqn:Hms; [apply Hf| |done].
  intros [= <- <-]. by eapply Hm.
Qed.

Lemma exits_with_for_loop code n : forall i body,
  (forall j, exits_with code (body j)) -> exits_with code (for_loop n i body).
Proof.
  induction n as [|n IH]; intros i body Hbody; simpl; [done|].
  apply exits_with_bind; [apply Hbody|]. intros _. by apply IH.
Qed.

Lemma exits_with_sequence code (l : list (M unit)) :
  Forall (exits_with code) l -> exits_with code (sequence_ l).
Proof.
  induction 1 as [|m l Hm Hl IH]; simpl; [done|].
  apply exits_with_bind; [exact Hm|]. intros _. exact IH.
Qed.

Lemma exits_with_exit code {A} : exits_with code (@exit A code).
Proof. by intros s c s' [= <- _]. Qed.

Ltac exits_structure :=
  repeat match goal with
    | |- exits_with _ (exit _) => apply exits_with_exit
    | |- exits_with _ (_ ≫= _) => apply exits_with_bind; [|intros ?]
    | |- exits_with _ (for_range _ _ _) => apply exits_with_for_loop; intros ?
    | |- exits_with _ (if ?c then _ else _) => destruct c
    | |- exits_with _ (match ?x with _ => _ end) => destruct x
    end.

(** A step that never exits. *)
Ltac exits_prim :=
  let s := fresh "s" in
  let c := fresh "c" in
  let s' := fresh "s'" in
  let H := fresh "H" in
  intros s c s' H; exfalso; revert H;
  cbv beta zeta delta
    [malloc rand store load free clCreateBuffer clEnqueueWriteBuffer
     clSetKernelArg clEnqueueNDRangeKernel clEnqueueReadBuffer
     clReleaseMemObject modify emit gets mret M_ret fault];
  repeat case_match; discriminate.

Ltac exits_program :=
  unfold init, print, printf_d, printf, perror, fopen, now,
    setup_openCL_device_context_queue_kernel, create_device, build_program,
    setup_kernel_memory, copy_kernel_args, free_memory,
    clGetPlatformIDs, clGetDeviceIDs, clCreateContext,
    clCreateProgramWithSource, clBuildProgram, clGetProgramBuildInfo,
    clCreateCommandQueueWithProperties, clCreateKernel, clWaitForEvents;
  exits_structure; try exits_prim.

Section ExitStatus.
Context (env : Env).

Lemma main_body_exits_with_1 : Forall (exits_with 1) (main_body env).
Proof.
  unfold main_body.
  repeat apply Forall_cons_2; try apply Forall_nil_2;
    try destruct (argv1 env); exits_program.
Qed.

Lemma no_release_before_free_memory :
  Forall (preserves (logged_since (fun e => negb (is_release e)) []))
    (take 16 (main_body env)).
Proof.
  unfold main_body. cbn [take].
  repeat apply Forall_cons_2; try apply Forall_nil_2;
    try destruct (argv1 env); logged_program.
Qed.

Lemma main_returns_0 r s : main env = Ret r s -> r = 0.
Proof.
  unfold main. rewrite bind_unfold.
  destruct (sequence_ (main_body env) initial_state); [|discriminate..].
  by intros [= <- _].
Qed.

Lemma main_exits_1 c s : main env = Exit c s -> c = 1.
Proof.
  unfold main. rewrite bind_unfold.
  destruct (sequence_ (main_body env) initial_state) eqn:Hseq;
    [discriminate| |discriminate].
  intros [= <- _].
  by eapply (exits_with_sequence 1 _ main_body_exits_with_1).
Qed.

Lemma main_exits_without_release c s :
  main env = Exit c s ->
  forallb (fun e => negb (is_release e)) (trace s) = true.
Proof.
  unfold main. rewrite bind_unfold.
  change (main_body env)
    with (take 16 (main_body env) ++ [free_memory]).
  rewrite sequence_app.
  pose proof (preserves_sequence _ _ no_release_before_free_memory
                initial_state (logged_since_refl _ initial_state)) as H16.
  destruct (sequence_ (take 16 (main_body env)) initial_state)
    as [[] s16|c16 s16|s16].
  - cbn [sequence_ foldr]. rewrite bind_unfold.
    destruct (free_memory s16) eqn:Hfree; [discriminate| |discriminate].
    by apply free_memory_no_exit in Hfree.
  - intros [= <- <-]. destruct H16 as (out & Htr & Hout).
    cbn in Htr. by rewrite Htr.
  - discriminate.
Qed.
End ExitStatus.

(** X12.  The process ends with one of two statuses: [main] returns 0
    only, and every [exit], in whatever function, is [exit(1)].  A run
    that exits has released nothing: no buffer, kernel, queue, program or
    context; [free_memory] is reached by completed runs only. *)
Theorem exit_status_and_no_cleanup (env : Env) :
  (forall r s, main env = Ret r s -> r = 0) /\
  (forall c s, main env = Exit c s ->
     c = 1 /\ forallb (fun e => negb (is_release e)) (trace s) = true).
Proof.
  split; [apply main_returns_0|]. intros c s Hrun.
  split; [by eapply main_exits_1|by eapply main_exits_without_release].
Qed.

(** ** Runs that complete, step by step *)

Section Steps.
Context (env : Env).

Lemma dispatch_step s :
  exists s',
    (sz ← gets SZ; clEnqueueNDRangeKernel env (wrap_size sz) ;; mret tt) s =
      Ret tt s' /\
    trace s' = trace s ++ [EvEnqueueNDRangeKernel (wrap_size (SZ s))] /\
    device_handles s' = device_handles s /\
    (forall h, buffers s !! h = None -> buffers s' !! h = None).
Proof.
  destruct s as [sz p1 p2 p3 h1 h2 h3 e bufs ka rs ma cr up tr].
  unfold clEnqueueNDRangeKernel, run_kernel, device_handles. munfold.
  state_simpl.
  repeat case_match; simplify_eq; (eexists; split; [reflexivity|]);
    state_simpl; (split_and!; [reflexivity..|]); intros key Hkey;
    try exact Hkey.
  all: rewrite lookup_insert_ne; [exact Hkey|]; intros ->; congruence.
Qed.

Lemma wait_step s :
  (clWaitForEvents env ;; mret tt) s =
    Ret tt (set_trace (trace s ++ [EvWaitForEvents]) s).
Proof. reflexivity. Qed.

Lemma read_back_step s :
  exists s',
    (b ← gets bufV_out; sz ← gets SZ;
     clEnqueueReadBuffer env b (size_bytes sz) V_out ;; mret tt) s = Ret tt s' /\
    trace s' = trace s ++ [EvEnqueueReadBuffer (bufV_out s) (size_bytes (SZ s))] /\
    device_handles s' = device_handles s /\
    buffers s' = buffers s.
Proof.
  destruct s as [sz p1 p2 p3 h1 h2 h3 e bufs ka rs ma cr up tr].
  unfold clEnqueueReadBuffer, device_handles. munfold. state_simpl.
  repeat case_match; simplify_eq; (eexists; split; [reflexivity|]);
    state_simpl; done.
Qed.

Lemma print_step A s s' :
  (sz ← gets SZ; print A sz) s = Ret tt s' ->
  exists out, s' = set_trace (trace s ++ out) s /\ forallb is_stdout out = true.
Proof.
  rewrite bind_unfold. cbv beta iota delta [gets]. intros Hrun.
  destruct (print_adds_output A (SZ s) s) as (out & Hs & Hout).
  rewrite Hrun in Hs. cbn in Hs. eauto.
Qed.
End Steps.

Section CompletedRun.
Context (env : Env).

Lemma completed_run_shape s_end :
  main env = Ret 0 s_end ->
  exists s6 s16 out,
    host_only s6 /\
    forallb is_stdout out = true /\
    trace s16 = trace s6 ++ device_run_events env out /\
    device_handles s16 =
      (run_length env, Some 0%nat, Some 1%nat, Some 2%nat) /\
    (forall h, (3 <= h)%nat -> buffers s16 !! h = None) /\
    s_end = after_free_memory s16.
Proof.
  unfold main. rewrite bind_unfold.
  change (main_body env)
    with (take 6 (main_body env) ++ drop 6 (main_body env)).
  rewrite sequence_app.
  pose proof (host_phase_host_only env initial_state host_only_initial) as H6.
  pose proof (sized_main_prefix env 5) as (HSZ6 & _).
  unfold host_phase in H6. unfold main_prefix in HSZ6.
  destruct (sequence_ (take 6 (main_body env)) initial_state) as [[] s6| |];
    [|discriminate..].
  cbn [state_of] in H6, HSZ6.
  unfold main_body at 1. cbn [drop sequence_ foldr].
  (* device set-up *)
  rewrite bind_unfold.
  destruct (setup_openCL_device_context_queue_kernel env _ _ s6)
    as [[] s7| |] eqn:H7; [|discriminate..].
  apply setup_returns_iff in H7 as [_ ->].
  set (s7 := after_setup env _ _ s6).
  destruct H6 as (Hbufs6 & Hcr6 & Hout6).
  assert (Hcr7 : created s7 = 0%nat) by exact Hcr6.
  assert (Hbufs7 : buffers s7 = ∅) by exact Hbufs6.
  assert (HSZ7 : SZ s7 = run_length env) by exact HSZ6.
  assert (Htr7 : trace s7 = trace s6 ++ setup_events env kernel_file kernel_name)
    by reflexivity.
  clearbody s7.
  (* buffers and uploads *)
  rewrite bind_unfold.
  destruct (buffers_granted env (created s7)) eqn:Hg.
  2: { destruct (setup_kernel_memory_null env s7 Hg) as (s8 & H8 & _).
       rewrite H8. discriminate. }
  destruct (setup_kernel_memory_granted env s7 Hg)
    as (s8 & H8 & Htr8 & Hh8 & _ & _ & _ & _ & _ & Hb8 & _).
  rewrite H8. cbv beta iota. clear H8.
  (* argument binds *)
  rewrite bind_unfold.
  destruct (Z.ltb_spec (err s8) 0) as [Hneg|Hpos].
  { destruct (copy_kernel_args_stale_error env s8 Hneg) as (s9 & H9 & _).
    rewrite H9. discriminate. }
  destruct (copy_kernel_args_slots env s8 Hpos)
    as (s9 & H9 & Htr9 & _ & _ & _ & _ & Hh9 & Hb9 & _).
  rewrite H9. cbv beta iota. clear H9.
  (* start of the clock, dispatch, wait, read-back *)
  set (s10 := set_trace (trace s9 ++ [EvNow]) s9).
  rewrite (bind_Ret now _ s9 s10 tt eq_refl).
  destruct (dispatch_step env s10) as (s11 & H11 & Htr11 & Hh11 & Hb11).
  rewrite (bind_Ret _ _ _ _ _ H11). clear H11.
  rewrite (bind_Ret _ _ _ _ _ (wait_step env s11)).
  set (s12 := set_trace (trace s11 ++ [EvWaitForEvents]) s11).
  destruct (read_back_step env s12) as (s13 & H13 & Htr13 & Hh13 & Hb13).
  rewrite (bind_Ret _ _ _ _ _ H13). clear H13.
  (* the result is printed *)
  rewrite bind_unfold.
  destruct ((sz ← gets SZ; print V_out sz) s13) as [[] s14| |] eqn:H14;
    [|discriminate..].
  apply print_step in H14 as (out & -> & Hout).
  (* stop of the clock, report, release *)
  set (s14 := set_trace (trace s13 ++ out) s13).
  set (s15 := set_trace (trace s14 ++ [EvNow]) s14).
  rewrite (bind_Ret now _ s14 s15 tt eq_refl).
  set (s16 := set_trace (trace s15 ++ [EvReportTime]) s15).
  rewrite (bind_Ret (emit EvReportTime) _ s15 s16 tt eq_refl).
  rewrite bind_unfold.
  destruct (free_memory s16) as [[] s17| |] eqn:H17; [|discriminate..].
  apply free_memory_ret in H17 as ->.
  cbv beta iota delta [mret M_ret]. intros [= <-].
  assert (Hh8' : device_handles s8 =
                 (run_length env, Some 0%nat, Some 1%nat, Some 2%nat))
    by (by rewrite Hh8, HSZ7, Hcr7).
  assert (Hh9' : device_handles s9 =
                 (run_length env, Some 0%nat, Some 1%nat, Some 2%nat))
    by (by rewrite Hh9).
  assert (Hh11' : device_handles s11 =
                  (run_length env, Some 0%nat, Some 1%nat, Some 2%nat))
    by (rewrite Hh11; exact Hh9').
  assert (Hh13' : device_handles s13 =
                  (run_length env, Some 0%nat, Some 1%nat, Some 2%nat))
    by (rewrite Hh13; exact Hh11').
  exists s6, s16, out. split_and!; [done|done| |exact Hh13'| |reflexivity].
  - assert (E9 : SZ s9 = run_length env) by (by injection Hh9').
    assert (E11 : SZ s11 = run_length env /\ bufV_out s11 = Some 2%nat)
      by (by injection Hh11').
    destruct E11 as [E11 E11'].
    change (trace s16)
      with (((trace s13 ++ out) ++ [EvNow]) ++ [EvReportTime]).
    rewrite Htr13.
    change (trace s12) with (trace s11 ++ [EvWaitForEvents]).
    change (bufV_out s12) with (bufV_out s11).
    change (SZ s12) with (SZ s11).
    rewrite Htr11.
    change (trace s10) with (trace s9 ++ [EvNow]).
    change (SZ s10) with (SZ s9).
    rewrite Htr9, Htr8, Htr7, E9, E11, E11'.
    unfold device_run_events, creation_events, upload_events.
    rewrite HSZ7, Hcr7. rewrite <- !app_assoc. reflexivity.
  - intros h Hh. change (buffers s16) with (buffers s13).
    rewrite Hb13. change (buffers s12) with (buffers s11).
    apply Hb11. change (buffers s10) with (buffers s9).
    rewrite Hb9, Hb8 by lia. rewrite Hbufs7. apply lookup_empty.
Qed.
End CompletedRun.

(** X13.  Every run that completes makes its device calls in one order:
    after the output of the two input vectors, the device set-up, three
    buffer creations of [SZ * sizeof(int)] bytes, the uploads of [v1] and
    [v2] to the first two buffers, the four argument binds, the start of
    the clock, the dispatch of [(size_t)SZ] work-items, the wait, the
    read-back of the third buffer, the output of the result, the stop of
    the clock and the report of the time; then the release of the three
    buffers, the kernel, the queue, the program and the context. *)
Theorem completed_run_order (env : Env) (s_end : State) :
  main env = Ret 0 s_end ->
  exists pre out,
    forallb is_stdout pre = true /\
    forallb is_stdout out = true /\
    trace s_end = pre ++ device_run_events env out ++ teardown_events.
Proof.
  intros Hrun.
  destruct (completed_run_shape env s_end Hrun)
    as (s6 & s16 & out & (_ & _ & Hpre) & Hout & Htr & Hh & _ & ->).
  exists (trace s6), out. split_and!; [done..|].
  injection Hh as _ E1 E2 E3.
  unfold after_free_memory, release_events, teardown_events.
  cbn [trace set_v_out set_v2 set_v1 set_buffers set_trace].
  rewrite Htr, E1, E2, E3, <- app_assoc. reflexivity.
Qed.

Lemma completed_run_order_witness :
  exists pre out,
    forallb is_stdout pre = true /\
    forallb is_stdout out = true /\
    trace (state_of (main (env_ok 3))) =
      pre ++ device_run_events (env_ok 3) out ++ teardown_events.
Proof.
  apply (completed_run_order (env_ok 3)). vm_compute. reflexivity.
Defined.

(** X14.  A run that completes leaves nothing behind: no buffer remains
    in device memory, and none of [v1], [v2], [v_out] is still
    allocated. *)
Theorem completed_run_releases_everything (env : Env) (s_end : State) :
  main env = Ret 0 s_end ->
  buffers s_end = ∅ /\
  (forall A cells, host A s_end <> Block cells).
Proof.
  intros Hrun.
  destruct (completed_run_shape env s_end Hrun)
    as (s6 & s16 & out & _ & _ & _ & Hh & Hkeys & ->).
  injection Hh as _ E1 E2 E3. split.
  - unfold after_free_memory.
    cbn [buffers set_v_out set_v2 set_v1 set_buffers].
    rewrite E1, E2, E3. unfold release. apply map_eq. intros h.
    rewrite lookup_empty.
    destruct (decide (h = 2%nat)) as [->|H2]; [apply lookup_delete_eq|].
    rewrite lookup_delete_ne by done.
    destruct (decide (h = 1%nat)) as [->|H1]; [apply lookup_delete_eq|].
    rewrite lookup_delete_ne by done.
    destruct (decide (h = 0%nat)) as [->|H0]; [apply lookup_delete_eq|].
    rewrite lookup_delete_ne by done.
    apply Hkeys. lia.
  - intros A cells. unfold after_free_memory, freed.
    destruct A; cbn [host v1 v2 v_out set_v_out set_v2 set_v1 set_buffers
                     set_trace];
      by repeat case_match.
Qed.

Lemma completed_run_releases_everything_witness :
  buffers (state_of (main (env_ok 3))) = ∅ /\
  (forall A cells, host A (state_of (main (env_ok 3))) <> Block cells).
Proof.
  apply (completed_run_releases_everything (env_ok 3)).
  vm_compute. reflexivity.
Defined.

(** ** Accesses to the host arrays *)

Section Safe.
Context (P : State -> Prop).









End Safe.





Section Roomy.
Context (env : Env) (n : Z).
Hypothesis Hmem : forall k, malloc_ok env k = true.
Hypothesis Hn : - 2 ^ 31 <= n < 2 ^ 31.















End Roomy.

Section GrantedMemory.
Context (env : Env).
Hypothesis Hmem : forall k, malloc_ok env k = true.



End GrantedMemory.


